(** * Viewer3D: shallow embedding of the 3D building viewer

    Source: the [DetailedBuilding] and [Viewer3D] components
    (frontend Viewer3D.jsx).  JavaScript numbers are modelled as real
    numbers (no rounding, no NaN or infinities); an absent field
    ([undefined]) is [None].  Strings are byte strings; [toLowerCase] is
    modelled on ASCII letters. *)

From Stdlib Require Import String Ascii List Bool Arith Lia Reals Lra Psatz Ratan Machin.
Import ListNotations.

(* ------------------------------------------------------------------ *)
(** ** JavaScript helpers *)

Module Js.

Local Open Scope char_scope.

(** [String.prototype.toLowerCase] on ASCII letters. *)
Definition lower_char (c : ascii) : ascii :=
  let n := nat_of_ascii c in
  if ((65 <=? n) && (n <=? 90))%nat then ascii_of_nat (n + 32)%nat else c.

Fixpoint toLowerCase (s : string) : string :=
  match s with
  | EmptyString => EmptyString
  | String c s' => String (lower_char c) (toLowerCase s')
  end.

Fixpoint startsWith (s p : string) : bool :=
  match p, s with
  | EmptyString, _ => true
  | String c p', String d s' => Ascii.eqb c d && startsWith s' p'
  | String _ _, EmptyString => false
  end.

(** [s.includes(p)]. *)
Fixpoint includes (s p : string) : bool :=
  startsWith s p ||
  match s with
  | EmptyString => false
  | String _ s' => includes s' p
  end.

(** [x || d] for a number: [undefined], [0] (and NaN, not modelled) are
    falsy. *)
Definition num_or (x : option R) (d : R) : R :=
  match x with
  | Some v => if Req_EM_T v 0 then d else v
  | None => d
  end.

(** [x?.toLowerCase() || ""] for an optional string. *)
Definition lower_or_empty (x : option string) : string :=
  match x with
  | Some s => toLowerCase s
  | None => EmptyString
  end.

(** [x === lit] where [x] may be [undefined]. *)
Definition eq_opt (x : option string) (lit : string) : bool :=
  match x with
  | Some s => String.eqb s lit
  | None => false
  end.

End Js.

(* ------------------------------------------------------------------ *)
(** ** Input record (RiskAssessmentResult, the part the viewer reads) *)

Record geometry_params := mk_geometry_params {
  gp_type : option string;
  gp_height : option R;
  gp_taper : option R;
  gp_twist : option R
}.

Record result := mk_result {
  r_geometry_params : option geometry_params;
  r_seismic_zone : option string;
  r_flood_risk : option string;
  r_max_wind_speed : option R;
  r_material : option string;
  r_structure : option string
}.

Definition empty_geometry_params : geometry_params :=
  mk_geometry_params None None None None.

(** [params?.geometry_params || {}] *)
Definition geoParams (p : option result) : geometry_params :=
  match p with
  | Some r => match r_geometry_params r with
              | Some g => g
              | None => empty_geometry_params
              end
  | None => empty_geometry_params
  end.

(* ------------------------------------------------------------------ *)
(** ** Style resolver: [materialStyle] and the structure flags *)

Module Style.

Local Open Scope string_scope.
Local Open Scope R_scope.

Record material_style := mk_style {
  ms_color : string;
  ms_roughness : R;
  ms_metalness : R;
  ms_name : string;
  ms_emissive : option string;
  ms_emissiveIntensity : option R
}.

Definition style_bio : material_style :=
  mk_style "#166534" 1.0 0.1 "Eco-Resilient Bio-Skin" (Some "#064e3b") (Some 0.2).
Definition style_alloy : material_style :=
  mk_style "#1e293b" 0.2 0.8 "Advanced Composite Alloy" (Some "#0f172a") (Some 0.1).
Definition style_smart : material_style :=
  mk_style "#4f46e5" 0.1 0.9 "Smart Nano-Structure" (Some "#312e81") (Some 0.4).
Definition style_uhpc : material_style :=
  mk_style "#94a3b8" 0.7 0.2 "UHPC Geopolymer" None None.
Definition style_default : material_style :=
  mk_style "#64748b" 0.3 0.7 "Resilient Hybrid Composite" None None.

(** [materialRec = params?.recommendations?.material?.toLowerCase() || ""] *)
Definition materialRec (p : option result) : string :=
  Js.lower_or_empty (match p with Some r => r_material r | None => None end).

Definition structureRec (p : option result) : string :=
  Js.lower_or_empty (match p with Some r => r_structure r | None => None end).

(** The [materialStyle] memo: an if-chain, first match wins. *)
Definition materialStyle (materialRec : string) : material_style :=
  let mat := Js.toLowerCase materialRec in
  if Js.includes mat "living" || Js.includes mat "moss" || Js.includes mat "forest"
     || Js.includes mat "algae" || Js.includes mat "bio" || Js.includes mat "timber"
     || Js.includes mat "bamboo"
  then style_bio
  else if Js.includes mat "carbon" || Js.includes mat "graphene"
          || Js.includes mat "titanium" || Js.includes mat "alloy"
          || Js.includes mat "fiber"
  then style_alloy
  else if Js.includes mat "smart" || Js.includes mat "kinetic"
          || Js.includes mat "memory" || Js.includes mat "nanopolymer"
          || Js.includes mat "self-healing"
  then style_smart
  else if Js.includes mat "concrete" || Js.includes mat "uhpc"
          || Js.includes mat "geopolymer" || Js.includes mat "ceramic"
  then style_uhpc
  else style_default.

Definition hasDiagrid (structureRec : string) : bool :=
  Js.includes structureRec "diagrid" || Js.includes structureRec "exoskeleton"
  || Js.includes structureRec "helical".

Definition hasThickColumns (structureRec : string) : bool :=
  Js.includes structureRec "tube" || Js.includes structureRec "mega"
  || Js.includes structureRec "buttressed".

Definition hasOutriggers (structureRec : string) : bool :=
  Js.includes structureRec "outrigger" || Js.includes structureRec "belt".

End Style.

(* ------------------------------------------------------------------ *)
(** ** Geometry generator: the [floors] memo *)

Module Geometry.

Local Open Scope R_scope.

Definition floorCount : nat := 30.
Definition floorHeight : R := 1.2.

(** [geoParams.height || 300] *)
Definition height (g : geometry_params) : R := Js.num_or (gp_height g) 300.
(** [geoParams.taper || 1.0] *)
Definition taperRatio (g : geometry_params) : R := Js.num_or (gp_taper g) 1.0.
(** [(geoParams.twist || 0) * (Math.PI / 180)] *)
Definition twistTotal (g : geometry_params) : R := Js.num_or (gp_twist g) 0 * (PI / 180).

(** The object built for floor [i]: [{ y, scale, rotation, id, isDiagridNode }]. *)
Record floor := mk_floor {
  f_y : R;
  f_scale : R;
  f_rotation : R;
  f_id : nat;
  f_isDiagridNode : bool
}.

Definition floor_at (taperRatio twistTotal : R) (i : nat) : floor :=
  let progress := INR i / INR floorCount in
  let currentScale := 1.0 - (1.0 - taperRatio) * progress in
  let currentRotation := twistTotal * progress in
  mk_floor (INR i * floorHeight * 2.5) currentScale currentRotation i
           (Nat.eqb (i mod 4) 0).

(** [Array.from({ length: floorCount }).map((_, i) => ...)], memoised on
    [floorCount], [taperRatio] and [twistTotal]. *)
Definition floors_of (taperRatio twistTotal : R) : list floor :=
  map (floor_at taperRatio twistTotal) (seq 0 floorCount).

Definition floors (g : geometry_params) : list floor :=
  floors_of (taperRatio g) (twistTotal g).

End Geometry.

(* ------------------------------------------------------------------ *)
(** ** Scene: what [DetailedBuilding] renders *)

Module Scene.

Local Open Scope string_scope.
Local Open Scope R_scope.
Import Geometry.

Inductive geometry :=
| CylinderGeometry (radiusTop radiusBottom h : R) (radialSegments : nat)
| BoxGeometry (x y z : R)
| PlaneGeometry (w h : R).

(** [new THREE.Plane(normal, constant)] *)
Record plane := mk_plane { pl_normal : R * R * R; pl_constant : R }.

Record material := mk_material {
  m_color : string;
  m_metalness : option R;
  m_roughness : option R;
  m_opacity : option R;
  m_transmission : option R;
  m_emissive : option string;
  m_emissiveIntensity : option R;
  m_clippingPlanes : list plane
}.

Definition plain_material (color : string) (clip : list plane) : material :=
  mk_material color None None None None None None clip.

(** Which JSX element a mesh comes from. *)
Inductive column_style := DiagridMember | MegaColumn | StandardColumn.

Inductive tag :=
| TWater | TFoundation | TPiling | TCore
| TSlab | TRib | TInnerMaterial | TInsulation | TLabel (text : string)
| TBalcony | TMechanical | TFacade | TWindowFrame
| TColumn (st : column_style) | TBeltTruss | TCutFace.

(** A [<mesh>]: its geometry children (a mesh whose children hold no
    geometry gets three.js's empty default geometry and draws nothing),
    position, rotation and material.  An [<Html>] label is a [TLabel] with
    no geometry. *)
Record mesh := mk_mesh {
  mesh_tag : tag;
  mesh_position : R * R * R;
  mesh_rotation : R * R * R;
  mesh_geometry : list geometry;
  mesh_material : option material
}.

(** A per-floor [<group>]: keyed and placed by the floor descriptor. *)
Record floor_group := mk_group {
  g_floor : floor;
  g_children : list mesh
}.

Record scene := mk_scene {
  sc_water : mesh;
  sc_foundation : mesh;
  sc_pilings : list mesh;
  sc_core : mesh;
  sc_floor_groups : list floor_group;
  sc_cut_face : option mesh
}.

(** Parameters of the component that each floor reads. *)
Record env := mk_env {
  e_type : option string;
  e_cutaway : bool;
  e_mode : option string;
  e_style : Style.material_style;
  e_materialRec : string;
  e_structureRec : string;
  e_wind : option R;
  e_clip : list plane
}.

Definition is_box_like (ty : option string) : bool :=
  Js.eq_opt ty "box" || Js.eq_opt ty "tapered" || Js.eq_opt ty "twisted".

(** The six conditional geometry children that every profiled layer
    (slab, inner ring, insulation ring, mechanical block, facade) lists. *)
Definition profile_children (ty : option string)
  (cyl hex tri pyr prism box : geometry) : list geometry :=
  (if Js.eq_opt ty "cylinder" then [cyl] else [])
  ++ (if Js.eq_opt ty "hexagon" then [hex] else [])
  ++ (if Js.eq_opt ty "triangle" then [tri] else [])
  ++ (if Js.eq_opt ty "pyramid" then [pyr] else [])
  ++ (if Js.eq_opt ty "prism" then [prism] else [])
  ++ (if is_box_like ty then [box] else []).

(** [r] is the ring radius for cylinder, hexagon and prism; [rt] for
    triangle and pyramid; [h] the layer height; [b] the box side. *)
Definition profile (ty : option string) (s r rt h b : R) : list geometry :=
  profile_children ty
    (CylinderGeometry (r * s) (r * s) h 32)
    (CylinderGeometry (r * s) (r * s) h 6)
    (CylinderGeometry (rt * s) (rt * s) h 3)
    (CylinderGeometry 0 (rt * s) h 4)
    (CylinderGeometry (r * s) (r * s) h 3)
    (BoxGeometry b h b).

Definition is_fire (mode : option string) : bool := Js.eq_opt mode "fire".

(** [simulationMode] as a JavaScript condition: [null], [undefined] and
    [""] are falsy. *)
Definition truthy (mode : option string) : bool :=
  match mode with Some s => negb (String.eqb s "") | None => false end.

(** [fireEmissive] and [fireIntensity] *)
Definition fireEmissive (e : env) : string :=
  if is_fire (e_mode e) then "#ef4444"
  else match Style.ms_emissive (e_style e) with
       | Some c => if String.eqb c "" then "#000000" else c
       | None => "#000000"
       end.

Definition fireIntensity (e : env) : R :=
  if is_fire (e_mode e) then 2.0
  else Js.num_or (Style.ms_emissiveIntensity (e_style e)) 0.

Definition origin : R * R * R := (0, 0, 0).
Definition deg (a : R) : R := a * (PI / 180).

Local Open Scope char_scope.
Definition upper_char (c : ascii) : ascii :=
  let n := nat_of_ascii c in
  if ((97 <=? n) && (n <=? 122))%nat then ascii_of_nat (n - 32)%nat else c.
Local Close Scope char_scope.

(** [String.prototype.toUpperCase] on ASCII letters. *)
Fixpoint toUpperCase (s : string) : string :=
  match s with
  | EmptyString => EmptyString
  | String c s' => String (upper_char c) (toUpperCase s')
  end.

(** [list.map((x, idx) => ...)] *)
Fixpoint mapi_from {A B : Type} (f : nat -> A -> B) (n : nat) (l : list A) : list B :=
  match l with
  | [] => []
  | x :: l' => f n x :: mapi_from f (S n) l'
  end.

Definition mapi {A B : Type} (f : nat -> A -> B) (l : list A) : list B :=
  mapi_from f 0 l.

(** Floor slab. *)
Definition slab (e : env) (f : floor) : mesh :=
  mk_mesh TSlab origin origin (profile (e_type e) (f_scale f) 5 6 0.5 10)
    (Some (mk_material (Style.ms_color (e_style e))
             (Some (Style.ms_metalness (e_style e)))
             (Some (Style.ms_roughness (e_style e))) None None
             (Some (fireEmissive e)) (Some (fireIntensity e)) (e_clip e))).

(** Cutaway layer 1: four core ribs. *)
Definition ribs (e : env) : list mesh :=
  map (fun angle =>
         mk_mesh TRib origin (0, deg angle, 0) [BoxGeometry 4.5 0.3 0.2]
           (Some (mk_material "#475569" (Some 0.7) (Some 0.3) None None None None
                    (e_clip e))))
      [0; 90; 180; 270].

(** Cutaway layer 2: the material-specific inner ring. *)
Definition inner_layer (e : env) (f : floor) : mesh :=
  let mat := e_materialRec e in
  let layerColor :=
    if Js.includes mat "self-healing" || Js.includes mat "graphene"
       || Js.includes mat "nanopolymer" then "#818cf8"
    else if Js.includes mat "living" || Js.includes mat "bio"
            || Js.includes mat "timber" then "#22c55e"
    else Style.ms_color (e_style e) in
  mk_mesh TInnerMaterial (0, 0.8, 0) origin
    (profile (e_type e) (f_scale f) 4.2 5.0 0.15 9.0)
    (Some (mk_material layerColor None None (Some 0.5) None
             (Style.ms_emissive (e_style e)) (Some 0.2) (e_clip e))).

(** Cutaway insulation ring, on floors with [i % 3 === 0]. *)
Definition insulation (e : env) (f : floor) (i : nat) : list mesh :=
  if Nat.eqb (i mod 3) 0 then
    [mk_mesh TInsulation (0, 1.2, 0) origin
       (profile (e_type e) (f_scale f) 4.5 5.3 0.08 9.5)
       (Some (mk_material "#fbbf24" None None (Some 0.3) None None None (e_clip e)))]
  else [].

(** X-ray labels on floor 15. *)
Definition labels (e : env) (i : nat) : list mesh :=
  if Nat.eqb i 15 then
    [mk_mesh (TLabel ("CORE RIBS: " ++
                 (if Js.includes (e_structureRec e) "steel" then "STEEL"
                  else "REINFORCED CONCRETE"))) (-3, 0, 0) origin [] None;
     mk_mesh (TLabel ("MATERIAL CORE: " ++ toUpperCase (Style.ms_name (e_style e))))
       (0, 0.8, -4) origin [] None;
     mk_mesh (TLabel "ACTIVE INSULATION / DAMPING") (3, 1.5, 0) origin [] None;
     mk_mesh (TLabel "ADAPTIVE FACADE SKIN") (0, 1, 6) origin [] None]
  else [].

Definition cutaway_layers (e : env) (f : floor) (i : nat) : list mesh :=
  if e_cutaway e then ribs e ++ inner_layer e f :: insulation e f i ++ labels e i
  else [].

(** Balconies: [!isCutaway && i % 5 === 0 && i > 0]. *)
Definition balconies (e : env) (f : floor) (i : nat) : list mesh :=
  if negb (e_cutaway e) && Nat.eqb (i mod 5) 0 && (0 <? i)%nat then
    map (fun angle =>
           let ty := e_type e in
           let radius :=
             if Js.eq_opt ty "cylinder" || Js.eq_opt ty "prism" then 5.2 * f_scale f
             else if Js.eq_opt ty "hexagon" then 5.2 * f_scale f
             else if Js.eq_opt ty "triangle" || Js.eq_opt ty "pyramid"
                  then 6.2 * f_scale f
             else 5.5 in
           let angleRad := angle * PI / 180 in
           mk_mesh TBalcony (cos angleRad * radius, 1, sin angleRad * radius)
             (0, angleRad, 0) [BoxGeometry 2 0.1 1.5]
             (Some (mk_material "#94a3b8" (Some 0.6) (Some 0.4) None None None None [])))
        [0; 90; 180; 270]
  else [].

(** Mechanical floors: [i % 15 === 0 && i > 0]. *)
Definition mechanical (e : env) (f : floor) (i : nat) : list mesh :=
  if Nat.eqb (i mod 15) 0 && (0 <? i)%nat then
    [mk_mesh TMechanical (0, 1.5, 0) origin
       (profile (e_type e) (f_scale f) 4.8 5.8 0.8 9.8)
       (Some (mk_material "#334155" (Some 0.8) (Some 0.2) None None None None (e_clip e)))]
  else [].

(** The facade ring. *)
Definition facade (e : env) (f : floor) : mesh :=
  mk_mesh TFacade (0, 1, 0) origin (profile (e_type e) (f_scale f) 4.9 5.8 2 9.8)
    (Some (mk_material
             (if is_fire (e_mode e) then "#fca5a5" else Style.ms_color (e_style e))
             None (Some 0.1)
             (Some (if is_fire (e_mode e) then 0.3 else if e_cutaway e then 0.2 else 0.7))
             (Some (if e_cutaway e then 0.8 else 0.4))
             (Some (fireEmissive e)) (Some (fireIntensity e * 0.2)) (e_clip e))).

(** Window frames: [!isCutaway && i % 2 === 0]. *)
Definition window_segments (e : env) : nat :=
  let windSpeed := Js.num_or (e_wind e) 30 in
  let ty := e_type e in
  let baseSegments :=
    if Js.eq_opt ty "cylinder" then 12%nat
    else if Js.eq_opt ty "hexagon" then 6%nat
    else if Js.eq_opt ty "triangle" || Js.eq_opt ty "prism" then 3%nat
    else 4%nat in
  if Rlt_dec 100 windSpeed then (baseSegments * 2)%nat
  else if Rlt_dec 70 windSpeed then ((baseSegments * 3) / 2)%nat
  else baseSegments.

Definition window_frames (e : env) (f : floor) (i : nat) : list mesh :=
  if negb (e_cutaway e) && Nat.eqb (i mod 2) 0 then
    let segments := window_segments e in
    let radius := 5.0 * f_scale f in
    map (fun j =>
           let angle := INR j / INR segments * PI * 2 in
           mk_mesh TWindowFrame (cos angle * radius, 1, sin angle * radius)
             (0, angle, 0) [BoxGeometry 0.1 1.8 0.1]
             (Some (mk_material "#1e293b" (Some 0.9) None None None None None [])))
        (seq 0 segments)
  else [].

(** Structural overlay: column positions by archetype. *)
Definition colPositions (ty : option string) (s : R) : list (R * R) :=
  let radius := 4.5 * s in
  if Js.eq_opt ty "cylinder" then
    map (fun j => let angle := INR j / 8 * PI * 2 in
                  (cos angle * radius, sin angle * radius)) (seq 0 8)
  else if Js.eq_opt ty "hexagon" then
    map (fun j => let angle := INR j / 6 * PI * 2 in
                  (cos angle * radius, sin angle * radius)) (seq 0 6)
  else if Js.eq_opt ty "triangle" then
    map (fun j => let angle := INR j / 3 * PI * 2 + PI / 6 in
                  (cos angle * (radius * 1.2), sin angle * (radius * 1.2))) (seq 0 3)
  else if Js.eq_opt ty "pyramid" then
    [(4.5 * s, 4.5 * s); (-4.5 * s, 4.5 * s); (4.5 * s, -4.5 * s); (-4.5 * s, -4.5 * s)]
  else if Js.eq_opt ty "prism" then
    map (fun j => let angle := INR j / 3 * PI * 2 in
                  (cos angle * radius, sin angle * radius)) (seq 0 3)
  else [(4.5, 4.5); (-4.5, 4.5); (4.5, -4.5); (-4.5, -4.5)].

(** [hasDiagrid ? diagrid : hasThickColumns ? mega : standard] *)
Definition columns (e : env) (f : floor) : list mesh :=
  let sr := e_structureRec e in
  let clip := e_clip e in
  let pos := colPositions (e_type e) (f_scale f) in
  if Style.hasDiagrid sr then
    mapi (fun idx p =>
            mk_mesh (TColumn DiagridMember) (fst p, 1, snd p)
              (0, 0, if Nat.even idx then PI / 4 else - (PI / 4))
              [CylinderGeometry 0.2 0.2 5 4]
              (Some (mk_material "#0f172a" (Some 0.8) (Some 0.2) None None None None clip)))
         pos
  else if Style.hasThickColumns sr then
    mapi (fun idx p =>
            mk_mesh (TColumn MegaColumn) (fst p, 1, snd p) origin
              [CylinderGeometry 0.6 0.6 2 8] (Some (plain_material "#334155" clip)))
         pos
  else
    mapi (fun idx p =>
            mk_mesh (TColumn StandardColumn) (fst p, 1, snd p) origin
              [CylinderGeometry 0.25 0.25 2 8] (Some (plain_material "#334155" clip)))
         pos.

(** Outriggers: [hasOutriggers && (i % 10 === 0)]. *)
Definition belt_truss (e : env) (f : floor) (i : nat) : list mesh :=
  if Style.hasOutriggers (e_structureRec e) && Nat.eqb (i mod 10) 0 then
    let ty := e_type e in
    let radius := 4.5 * f_scale f in
    [mk_mesh TBeltTruss (0, 0.5, 0) origin
       [if Js.eq_opt ty "cylinder" || Js.eq_opt ty "hexagon" || Js.eq_opt ty "prism" then
          CylinderGeometry (radius + 0.5) (radius + 0.5) 0.8
            (if Js.eq_opt ty "cylinder" then 32%nat
             else if Js.eq_opt ty "hexagon" then 6%nat else 3%nat)
        else if Js.eq_opt ty "pyramid" then CylinderGeometry 0.5 (radius + 0.5) 0.8 4
        else BoxGeometry 10.2 0.8 10.2]
       (Some (mk_material "#ef4444" None None None None (Some "#7f1d1d") (Some 0.5)
                (e_clip e)))]
  else [].

Definition structural_overlay (e : env) (f : floor) (i : nat) : list mesh :=
  columns e f ++ belt_truss e f i.

(** The children of floor [i]'s group, in source order. *)
Definition floor_children (e : env) (i : nat) (f : floor) : list mesh :=
  slab e f :: cutaway_layers e f i ++ balconies e f i ++ mechanical e f i
  ++ facade e f :: window_frames e f i ++ structural_overlay e f i.

Definition floor_group_of (e : env) (i : nat) (f : floor) : floor_group :=
  mk_group f (floor_children e i f).

(** [params?.profile?.seismic_zone?.includes("High") ? 0.05 : 0.02] *)
Definition seismicPGA (p : option result) : R :=
  match p with
  | Some r => match r_seismic_zone r with
              | Some z => if Js.includes z "High" then 0.05 else 0.02
              | None => 0.02
              end
  | None => 0.02
  end.

(** [params?.profile?.flood_risk?.includes("High") ? 15 : 5] *)
Definition floodRisk (p : option result) : R :=
  match p with
  | Some r => match r_flood_risk r with
              | Some z => if Js.includes z "High" then 15 else 5
              | None => 5
              end
  | None => 5
  end.

Definition clipPlanes (isCutaway : bool) : list plane :=
  if isCutaway then [mk_plane (-1, 0, 0) 0] else [].

Definition env_of (p : option result) (isCutaway : bool) (mode : option string) : env :=
  mk_env (gp_type (geoParams p)) isCutaway mode
    (Style.materialStyle (Style.materialRec p)) (Style.materialRec p)
    (Style.structureRec p)
    (match p with Some r => r_max_wind_speed r | None => None end)
    (clipPlanes isCutaway).

(** The flood plane as first mounted. *)
Definition water_mesh : mesh :=
  mk_mesh TWater (0, -5, 0) (- (PI / 2), 0, 0) [PlaneGeometry 1000 1000]
    (Some (mk_material "#3b82f6" None (Some 0.05) (Some 0) (Some 0.9) None None [])).

Definition foundation (p : option result) (clip : list plane) : mesh :=
  let ty := gp_type (geoParams p) in
  mk_mesh TFoundation (0, -2, 0) origin
    [CylinderGeometry (if Js.eq_opt ty "pyramid" then 8 else 6.5)
       (if Js.eq_opt ty "pyramid" then 10 else 8) 4
       (if Js.eq_opt ty "cylinder" then 32%nat
        else if Js.eq_opt ty "hexagon" then 6%nat else 4%nat)]
    (Some (mk_material (if Rlt_dec 10 (floodRisk p) then "#cbd5e1" else "#475569")
             None (Some 0.9) None None None None clip)).

Definition pilings (p : option result) (clip : list plane) : list mesh :=
  if Rlt_dec 10 (floodRisk p) then
    map (fun angle =>
           mk_mesh TPiling (cos (angle * PI / 180) * 4, -6, sin (angle * PI / 180) * 4)
             origin [CylinderGeometry 0.8 0.8 8 8]
             (Some (plain_material "#334155" clip))) [0; 120; 240]
  else if Rlt_dec 0.04 (seismicPGA p) then
    map (fun angle =>
           mk_mesh TPiling (cos (angle * PI / 180) * 4, -6, sin (angle * PI / 180) * 4)
             origin [CylinderGeometry 0.8 0.8 8 8]
             (Some (plain_material "#334155" clip))) [0; 120; 240]
  else [].

Definition core (mode : option string) (clip : list plane) : mesh :=
  let h := INR floorCount * floorHeight * 2.5 in
  mk_mesh TCore (0, h / 2, 0) origin [CylinderGeometry 1.5 1.5 h 8]
    (Some (mk_material (if is_fire mode then "#7f1d1d" else "#475569") None (Some 0.8)
             None None (Some (if is_fire mode then "#ef4444" else "#000000"))
             (Some (if is_fire mode then 0.5 else 0)) clip)).

(** The cross-section cut face, drawn only in cutaway mode. *)
Definition cut_face (p : option result) (isCutaway : bool) : option mesh :=
  if isCutaway then
    let height := Geometry.height (geoParams p) in
    Some (mk_mesh TCutFace (-0.05, height / 25, 0) (0, PI / 2, 0)
            [PlaneGeometry (height / 5) (height / 5)]
            (Some (mk_material "#020617" None None (Some 0.6) None None None [])))
  else None.

(** [<DetailedBuilding params isCutaway simulationMode />] as first rendered. *)
Definition DetailedBuilding (p : option result) (isCutaway : bool)
  (mode : option string) : scene :=
  let e := env_of p isCutaway mode in
  let clip := clipPlanes isCutaway in
  mk_scene water_mesh (foundation p clip) (pilings p clip) (core mode clip)
    (mapi (floor_group_of e) (floors (geoParams p)))
    (cut_face p isCutaway).

End Scene.

(* ------------------------------------------------------------------ *)
(** ** Hazard simulation: the [useFrame] callback *)

Module Frame.

Local Open Scope string_scope.
Local Open Scope R_scope.

(** [THREE.MathUtils.lerp(x, y, t) = (1 - t) * x + t * y] *)
Definition lerp (x y t : R) : R := (1 - t) * x + t * y.

(** The mutable scene-graph fields the callback writes: the building
    group's rotation and the flood plane's height and opacity.  Both refs
    are attached once the view is mounted. *)
Record frame_state := mk_frame_state {
  rot_x : R;
  rot_y : R;
  rot_z : R;
  water_y : R;
  water_opacity : R
}.

(** The state right after mount: upright group, plane at [-5], opacity 0. *)
Definition initial_state : frame_state := mk_frame_state 0 0 0 (-5) 0.

Definition base_rotation (isCutaway : bool) (mode : option string)
  (s : frame_state) : frame_state :=
  if negb (Scene.truthy mode) && negb isCutaway then
    mk_frame_state (rot_x s) (rot_y s + 0.002) (rot_z s) (water_y s) (water_opacity s)
  else s.

Definition seismic (seismicPGA : R) (isCutaway : bool) (mode : option string)
  (time : R) (s : frame_state) : frame_state :=
  if Js.eq_opt mode "quake" then
    let swayX := sin (time * 5) * seismicPGA * 2 in
    let swayZ := cos (time * 4) * seismicPGA * 2 in
    let twist := sin (time * 8) * (seismicPGA / 2) in
    mk_frame_state swayZ (if isCutaway then rot_y s else rot_y s + twist) swayX
      (water_y s) (water_opacity s)
  else
    mk_frame_state (lerp (rot_x s) 0 0.1) (rot_y s) (lerp (rot_z s) 0 0.1)
      (water_y s) (water_opacity s).

Definition flood (floodRisk : R) (mode : option string) (s : frame_state) : frame_state :=
  if Js.eq_opt mode "flood" then
    let targetHeight := floodRisk in
    mk_frame_state (rot_x s) (rot_y s) (rot_z s)
      (lerp (water_y s) (targetHeight / 2) 0.02) (lerp (water_opacity s) 0.8 0.02)
  else
    mk_frame_state (rot_x s) (rot_y s) (rot_z s)
      (lerp (water_y s) (-5) 0.05) (lerp (water_opacity s) 0 0.05).

(** One call of the [useFrame] callback at clock time [time]. *)
Definition useFrame (p : option result) (isCutaway : bool) (mode : option string)
  (time : R) (s : frame_state) : frame_state :=
  flood (Scene.floodRisk p) mode
    (seismic (Scene.seismicPGA p) isCutaway mode time
       (base_rotation isCutaway mode s)).

(** [n] frames under a fixed mode, starting at clock time [t0] with frame
    period [dt]. *)
Fixpoint run (p : option result) (isCutaway : bool) (mode : option string)
  (t0 dt : R) (n : nat) (s : frame_state) : frame_state :=
  match n with
  | O => s
  | S n' => run p isCutaway mode (t0 + dt) dt n' (useFrame p isCutaway mode t0 s)
  end.

End Frame.

(* ------------------------------------------------------------------ *)
(** ** Snapshot capability *)

Module Snapshot.

Local Open Scope string_scope.

(** A canvas element and the pixels of its drawing buffer (kept between
    frames: [preserveDrawingBuffer: true]). *)
Record canvas := mk_canvas { cv_pixels : list nat }.

Inductive element := ECanvas (c : canvas) | EOther (tagName : string).

Section Encoding.

(** The PNG-then-base64 encoding of a pixel buffer. *)
Variable encode_png_base64 : list nat -> string.

(** [canvas.toDataURL(type)] *)
Definition toDataURL (c : canvas) (type : string) : string :=
  "data:" ++ type ++ ";base64," ++ encode_png_base64 (cv_pixels c).

(** [document.querySelector('canvas')]: the first canvas in document order. *)
Fixpoint querySelector_canvas (doc : list element) : option canvas :=
  match doc with
  | [] => None
  | ECanvas c :: _ => Some c
  | EOther _ :: doc' => querySelector_canvas doc'
  end.

(** [captureSnapshot] *)
Definition captureSnapshot (doc : list element) : option string :=
  match querySelector_canvas doc with
  | Some canvas => Some (toDataURL canvas "image/png")
  | None => None
  end.

End Encoding.

Definition has_canvas (doc : list element) : bool :=
  existsb (fun el => match el with ECanvas _ => true | EOther _ => false end) doc.

End Snapshot.

(* ------------------------------------------------------------------ *)
(** ** Dashboard: the caller of [Viewer3D] (Dashboard.jsx) *)

Module Dashboard.

Local Open Scope string_scope.


(** The three buttons. *)
Definition sim_buttons : list string := ["quake"; "flood"; "fire"].


(** The quake button caption: [Scale {... includes("High") ? '8.0' : '6.0'} Quake]. *)
Definition quakeButtonLabel (p : option result) : string :=
  "Scale " ++ (match p with
               | Some r => match r_seismic_zone r with
                           | Some z => if Js.includes z "High" then "8.0" else "6.0"
                           | None => "6.0"
                           end
               | None => "6.0"
               end) ++ " Quake".

(** The structure card's click handler: the article name it picks. *)
Definition wiki_query (structure : string) : string :=
  let struct := Js.toLowerCase structure in
  if Js.includes struct "diagrid" then "Diagrid"
  else if Js.includes struct "outrigger" then "Outrigger_(structure)"
  else if Js.includes struct "buttressed" then "Buttressed_core"
  else if Js.includes struct "tube" then "Tube_(structure)"
  else if Js.includes struct "exoskeleton" then "Structural_exoskeleton"
  else if Js.includes struct "shear" then "Shear_wall"
  else if Js.includes struct "moment" then "Moment-resisting_frame"
  else if Js.includes struct "bundled" then "Bundled_tube"
  else if Js.includes struct "mega" then "Megaframe"
  else structure.

Definition directWiki : list string :=
  ["diagrid"; "outrigger"; "buttressed"; "tube"; "exoskeleton"; "shear"; "moment";
   "bundled"; "mega"].

Definition hasWiki (structure : string) : bool :=
  existsb (fun term => Js.includes (Js.toLowerCase structure) term) directWiki.

(** The URL [window.open] receives. *)
Definition structureLinkUrl (structure : string) : string :=
  if hasWiki structure
  then "https://en.wikipedia.org/wiki/" ++ wiki_query structure
  else "https://duckduckgo.com/?q=" ++ wiki_query structure
       ++ "+structural+system+architectural+definition&ia=web".

(** The article names the handler can pick. *)
Definition wiki_articles : list string :=
  ["Diagrid"; "Outrigger_(structure)"; "Buttressed_core"; "Tube_(structure)";
   "Structural_exoskeleton"; "Shear_wall"; "Moment-resisting_frame"; "Bundled_tube";
   "Megaframe"].

(** [s.replace(/ /g, r)] for a one-character replacement [r]. *)
Fixpoint replace_spaces (r : ascii) (s : string) : string :=
  match s with
  | EmptyString => EmptyString
  | String c s' =>
      String (if Ascii.eqb c " "%char then r else c) (replace_spaces r s')
  end.

(** The material card's search URL. *)
Definition materialSearchUrl (material : string) : string :=
  "https://www.google.com/search?q=" ++ replace_spaces "+"%char material
  ++ "+architecture+material+properties".

(** The report's file name. *)
Definition reportFileName (locationName : string) : string :=
  replace_spaces "_"%char locationName ++ "_StrataMind_Report.pdf".

(** The report's "Layer 2 (Mid)" description and X-ray colour. *)
Definition layer2 (material : string) : string * string :=
  let mat := Js.toLowerCase material in
  if Js.includes mat "self-healing" || Js.includes mat "graphene" then
    ("Smart Material Layer (Self-Healing Nanopolymer)", "Indigo - Active Repair System")
  else if Js.includes mat "living" || Js.includes mat "bio" || Js.includes mat "algae" then
    ("Bio-Active Layer (Living Vegetation/Algae Panels)", "Green - Air Purification Active")
  else if Js.includes mat "carbon" || Js.includes mat "titanium" then
    ("High-Performance Composite (Carbon Fiber/Titanium)", "Dark Metallic - Maximum Strength")
  else ("Structural Core (High-Strength Concrete/Steel)", "Gray").

End Dashboard.

(* ------------------------------------------------------------------ *)
(** ** Observations on rendered output *)

Module Observe.

(** The column style of a mesh, if it is a column. *)
Definition column_style_of (m : Scene.mesh) : option Scene.column_style :=
  match Scene.mesh_tag m with Scene.TColumn st => Some st | _ => None end.

(** The column styles drawn among a list of meshes, in order. *)
Definition column_styles (l : list Scene.mesh) : list Scene.column_style :=
  flat_map (fun m => match column_style_of m with Some st => [st] | None => [] end) l.

Definition is_belt (m : Scene.mesh) : bool :=
  match Scene.mesh_tag m with Scene.TBeltTruss => true | _ => false end.

(** How many belt-truss rings are drawn among a list of meshes. *)
Definition belt_count (l : list Scene.mesh) : nat := length (filter is_belt l).

(** The column style the spec's priority chain selects. *)
Definition chosen_style (structureRec : string) : Scene.column_style :=
  if Style.hasDiagrid structureRec then Scene.DiagridMember
  else if Style.hasThickColumns structureRec then Scene.MegaColumn
  else Scene.StandardColumn.

(** The diagrid tilt the spec asks for at position index [idx]. *)
Definition diagrid_tilt (idx : nat) : R :=
  if Nat.even idx then (PI / 4)%R else (- (PI / 4))%R.

(** The same result record with only [geometry_params.height] replaced. *)
Definition with_height (r : result) (h : option R) : result :=
  let g0 := geoParams (Some r) in
  mk_result (Some (mk_geometry_params (gp_type g0) h (gp_taper g0) (gp_twist g0)))
    (r_seismic_zone r) (r_flood_risk r) (r_max_wind_speed r) (r_material r)
    (r_structure r).


(** How many meshes among [l] carry a tag satisfying [pt]. *)
Definition count_tag (pt : Scene.tag -> bool) (l : list Scene.mesh) : nat :=
  length (filter (fun m => pt (Scene.mesh_tag m)) l).

(** The per-floor counts of such meshes across a scene's floor groups. *)
Definition per_floor_count (pt : Scene.tag -> bool) (sc : Scene.scene) : list nat :=
  map (fun g => count_tag pt (Scene.g_children g)) (Scene.sc_floor_groups sc).

Definition is_mechanical (t : Scene.tag) : bool :=
  match t with Scene.TMechanical => true | _ => false end.
Definition is_balcony (t : Scene.tag) : bool :=
  match t with Scene.TBalcony => true | _ => false end.
Definition is_belt_tag (t : Scene.tag) : bool :=
  match t with Scene.TBeltTruss => true | _ => false end.
Definition is_rib (t : Scene.tag) : bool :=
  match t with Scene.TRib => true | _ => false end.
Definition is_inner (t : Scene.tag) : bool :=
  match t with Scene.TInnerMaterial => true | _ => false end.
Definition is_insulation (t : Scene.tag) : bool :=
  match t with Scene.TInsulation => true | _ => false end.
Definition is_label (t : Scene.tag) : bool :=
  match t with Scene.TLabel _ => true | _ => false end.
Definition is_window_frame (t : Scene.tag) : bool :=
  match t with Scene.TWindowFrame => true | _ => false end.

(** A mesh is clipped by [clip] when its material (if any) carries exactly
    the clipping planes [clip]. *)
Definition clipped (clip : list Scene.plane) (m : Scene.mesh) : Prop :=
  forall mat, Scene.mesh_material m = Some mat -> Scene.m_clippingPlanes mat = clip.

Definition is_slab (t : Scene.tag) : bool :=
  match t with Scene.TSlab => true | _ => false end.
Definition is_facade (t : Scene.tag) : bool :=
  match t with Scene.TFacade => true | _ => false end.

(** The material of the first mesh among [l] whose tag satisfies [pt]. *)
Definition first_material (pt : Scene.tag -> bool) (l : list Scene.mesh)
  : option Scene.material :=
  match find (fun m => pt (Scene.mesh_tag m)) l with
  | Some m => Scene.mesh_material m
  | None => None
  end.

(** The colour of a mesh's material, if it has one. *)
Definition mesh_color (m : Scene.mesh) : option string :=
  option_map Scene.m_color (Scene.mesh_material m).

(** A sequence of frames, each with its own cutaway flag, mode and clock. *)
Fixpoint run_script (p : option result) (frames : list (bool * option string * R))
  (s : Frame.frame_state) : Frame.frame_state :=
  match frames with
  | [] => s
  | (cut, mode, t) :: rest => run_script p rest (Frame.useFrame p cut mode t s)
  end.

End Observe.

(* ================================================================== *)
(** * Properties *)

Local Open Scope R_scope.

(** ** Auxiliary facts *)

Lemma pi_bounds : 3.14 < PI < 3.1416.
Proof.
  destruct (PI_2_3_7_ineq 2) as [Hlo Hhi].
  unfold PI_2_3_7_tg, tg_alt, Ratan_seq in Hlo, Hhi.
  simpl in Hlo, Hhi.
  lra.
Qed.

Lemma num_or_nonzero (v d : R) : v <> 0 -> Js.num_or (Some v) d = v.
Proof. intro H; unfold Js.num_or; destruct (Req_EM_T v 0); [contradiction | reflexivity]. Qed.

Lemma num_or_zero_default (v : R) : Js.num_or (Some v) 0 = v.
Proof. unfold Js.num_or; destruct (Req_EM_T v 0); auto. Qed.

Lemma INR_floorCount : INR Geometry.floorCount = 30.
Proof. unfold Geometry.floorCount; rewrite INR_IZR_INZ; reflexivity. Qed.

Lemma length_floors (g : geometry_params) : length (Geometry.floors g) = 30%nat.
Proof.
  unfold Geometry.floors, Geometry.floors_of.
  rewrite length_map, length_seq; reflexivity.
Qed.

Lemma nth_floors (g : geometry_params) (i : nat) (d : Geometry.floor) :
  (i < 30)%nat ->
  nth i (Geometry.floors g) d
  = Geometry.floor_at (Geometry.taperRatio g) (Geometry.twistTotal g) i.
Proof.
  intro Hi. unfold Geometry.floors, Geometry.floors_of.
  rewrite (nth_indep _ d (Geometry.floor_at (Geometry.taperRatio g)
                            (Geometry.twistTotal g) 0))
    by (rewrite length_map, length_seq; exact Hi).
  rewrite map_nth, seq_nth by exact Hi.
  reflexivity.
Qed.

Lemma nth_map_floors {A : Type} (h : Geometry.floor -> A) (g : geometry_params)
  (i : nat) (d : A) :
  (i < 30)%nat ->
  nth i (map h (Geometry.floors g)) d
  = h (Geometry.floor_at (Geometry.taperRatio g) (Geometry.twistTotal g) i).
Proof.
  intro Hi.
  rewrite (nth_indep _ d (h (Geometry.floor_at (Geometry.taperRatio g)
                               (Geometry.twistTotal g) 0)))
    by (rewrite length_map, length_floors; exact Hi).
  rewrite map_nth, nth_floors by exact Hi.
  reflexivity.
Qed.

Lemma scale_at (g : geometry_params) (i : nat) :
  (i < 30)%nat ->
  nth i (map Geometry.f_scale (Geometry.floors g)) 0
  = 1 - (1 - Geometry.taperRatio g) * (INR i / 30).
Proof.
  intro Hi. rewrite nth_map_floors by exact Hi.
  unfold Geometry.floor_at; cbn [Geometry.f_scale].
  rewrite INR_floorCount; unfold Q2R; simpl; field.
Qed.

Lemma rotation_at (g : geometry_params) (i : nat) :
  (i < 30)%nat ->
  nth i (map Geometry.f_rotation (Geometry.floors g)) 0
  = Geometry.twistTotal g * (INR i / 30).
Proof.
  intro Hi. rewrite nth_map_floors by exact Hi.
  unfold Geometry.floor_at; cbn [Geometry.f_rotation].
  rewrite INR_floorCount; reflexivity.
Qed.

(** Concrete inputs used below. *)
Definition sample_material_result : result :=
  mk_result None None None None (Some "Self-Healing Graphene Composite"%string) None.

Definition cylinder_params : geometry_params :=
  mk_geometry_params (Some "cylinder"%string) (Some 300) (Some 0.6) (Some 90).

Definition untyped_params : geometry_params :=
  mk_geometry_params None (Some 300) (Some 1) (Some 0).

Definition untyped_result : result :=
  mk_result (Some untyped_params) None None None None None.

(** ** C1: the material resolver on "Self-Healing Graphene Composite" *)

(** C1 (as stated, refuted): the claim says this text resolves to category 3,
    Smart Nano-Structure.  The lowered text contains "graphene", a category-2
    keyword tested earlier in the chain, so it does not. *)
Lemma C1_counterexample :
  Style.materialStyle (Style.materialRec (Some sample_material_result))
  <> Style.style_smart.
Proof.
  change (Style.materialStyle (Style.materialRec (Some sample_material_result)))
    with Style.style_alloy.
  intro H. apply (f_equal Style.ms_name) in H. discriminate H.
Qed.

(** C1 (amended): "Self-Healing Graphene Composite" resolves to category 2,
    Advanced Composite Alloy (dark color, roughness 0.2, metalness 0.8, faint
    emissive), because the "graphene" rule precedes the "self-healing" rule
    in the first-match-wins order. *)
Theorem C1_graphene_wins :
  Style.materialStyle (Style.materialRec (Some sample_material_result))
  = Style.style_alloy
  /\ Style.ms_name (Style.materialStyle (Style.materialRec (Some sample_material_result)))
     = "Advanced Composite Alloy"%string.
Proof. split; reflexivity. Qed.

(** ** C2: layers for an unset cross-section archetype *)

(** C2 (code defect): with [geometry_params.type] unset, no geometry child of
    the slab, facade, inner ring, insulation ring or mechanical block is
    selected, so these meshes draw nothing.  The column layout of the same
    floor does fall back to the four box corners. *)
Theorem C2_untyped_layers_empty :
  forall (cut : bool) (mode : option string) (f : Geometry.floor),
    let e := Scene.env_of (Some untyped_result) cut mode in
    Scene.mesh_geometry (Scene.slab e f) = []
    /\ Scene.mesh_geometry (Scene.facade e f) = []
    /\ Scene.mesh_geometry (Scene.inner_layer e f) = []
    /\ (forall i, map Scene.mesh_geometry (Scene.insulation e f i)
                  = map (fun _ => []) (Scene.insulation e f i))
    /\ (forall i, map Scene.mesh_geometry (Scene.mechanical e f i)
                  = map (fun _ => []) (Scene.mechanical e f i))
    /\ Scene.colPositions (Scene.e_type e) (Geometry.f_scale f)
       = [(4.5, 4.5); (-4.5, 4.5); (4.5, -4.5); (-4.5, -4.5)].
Proof.
  intros cut mode f e.
  repeat split; intros;
    unfold Scene.insulation, Scene.mechanical;
    repeat match goal with |- context [if ?b then _ else _] => destruct b end;
    reflexivity.
Qed.

(** ** C3: the per-floor scale and rotation formulas *)

(** C3: for a present, non-zero taper [t] and a present twist [w] (degrees),
    floor [i < 30] has scale [1 - (1 - t) * (i/30)] and rotation
    [(w * PI / 180) * (i/30)]; for the cylinder example (taper 0.6, twist 90)
    floor 29 has scale [1 - 0.4 * (29/30)], about 0.6133, and rotation
    about 1.518 rad. *)
Theorem C3_floor_formula :
  (forall (g : geometry_params) (t w : R) (i : nat),
      gp_taper g = Some t -> t <> 0 -> gp_twist g = Some w -> (i < 30)%nat ->
      nth i (map Geometry.f_scale (Geometry.floors g)) 0 = 1 - (1 - t) * (INR i / 30)
      /\ nth i (map Geometry.f_rotation (Geometry.floors g)) 0
         = (w * PI / 180) * (INR i / 30))
  /\ nth 29 (map Geometry.f_scale (Geometry.floors cylinder_params)) 0
     = 1 - 0.4 * (29 / 30)
  /\ 0.6133 < nth 29 (map Geometry.f_scale (Geometry.floors cylinder_params)) 0 < 0.6134
  /\ 1.517 < nth 29 (map Geometry.f_rotation (Geometry.floors cylinder_params)) 0 < 1.519.
Proof.
  assert (Hgen : forall (g : geometry_params) (t w : R) (i : nat),
      gp_taper g = Some t -> t <> 0 -> gp_twist g = Some w -> (i < 30)%nat ->
      nth i (map Geometry.f_scale (Geometry.floors g)) 0 = 1 - (1 - t) * (INR i / 30)
      /\ nth i (map Geometry.f_rotation (Geometry.floors g)) 0
         = (w * PI / 180) * (INR i / 30)).
  { intros g t w i Ht Ht0 Hw Hi. split.
    - rewrite scale_at by exact Hi.
      unfold Geometry.taperRatio; rewrite Ht, num_or_nonzero by exact Ht0.
      reflexivity.
    - rewrite rotation_at by exact Hi.
      unfold Geometry.twistTotal; rewrite Hw, num_or_zero_default.
      unfold Rdiv; ring. }
  assert (H29 : INR 29 = 29) by (rewrite INR_IZR_INZ; reflexivity).
  destruct (Hgen cylinder_params 0.6 90 29%nat eq_refl ltac:(lra) eq_refl ltac:(lia))
    as [Hs Hr].
  rewrite H29 in Hs, Hr.
  pose proof pi_bounds.
  split; [exact Hgen |].
  rewrite Hs, Hr. unfold Q2R; simpl. repeat split; lra.
Qed.

(** ** C4: the flood plane *)

Lemma water_y_useFrame (p : option result) (cut : bool) (mode : option string)
  (t : R) (s : Frame.frame_state) :
  Frame.water_y (Frame.useFrame p cut mode t s)
  = if Js.eq_opt mode "flood"%string
    then Frame.lerp (Frame.water_y s) (Scene.floodRisk p / 2) 0.02
    else Frame.lerp (Frame.water_y s) (-5) 0.05.
Proof.
  unfold Frame.useFrame, Frame.flood, Frame.seismic, Frame.base_rotation.
  destruct (Js.eq_opt mode "flood"); cbn [Frame.water_y];
    repeat match goal with |- context [if ?b then _ else _] =>
             match b with Js.eq_opt mode "flood"%string => fail 1 | _ => destruct b end end;
    reflexivity.
Qed.

Lemma run_S_end (p : option result) (cut : bool) (mode : option string)
  (dt : R) (n : nat) : forall (t0 : R) (s : Frame.frame_state),
  Frame.run p cut mode t0 dt (S n) s
  = Frame.useFrame p cut mode (t0 + INR n * dt) (Frame.run p cut mode t0 dt n s).
Proof.
  induction n as [| n IH]; intros t0 s.
  - simpl. rewrite Rmult_0_l, Rplus_0_r. reflexivity.
  - change (Frame.run p cut mode t0 dt (S (S n)) s)
      with (Frame.run p cut mode (t0 + dt) dt (S n) (Frame.useFrame p cut mode t0 s)).
    rewrite IH. rewrite S_INR.
    replace (t0 + dt + INR n * dt) with (t0 + (INR n + 1) * dt) by ring.
    reflexivity.
Qed.

Lemma floodRisk_tiers (p : option result) :
  Scene.floodRisk p = 15 \/ Scene.floodRisk p = 5.
Proof.
  unfold Scene.floodRisk.
  destruct p as [r |]; [destruct (r_flood_risk r) as [z |] |]; auto.
  destruct (Js.includes z "High"); auto.
Qed.

Lemma flood_below_target (p : option result) (cut : bool) (dt : R) (n : nat) :
  forall (t0 : R) (s : Frame.frame_state),
  Frame.water_y s < Scene.floodRisk p / 2 ->
  Frame.water_y (Frame.run p cut (Some "flood"%string) t0 dt n s) < Scene.floodRisk p / 2.
Proof.
  induction n as [| n IH]; intros t0 s Hs; [exact Hs |].
  simpl Frame.run. apply IH.
  rewrite water_y_useFrame; cbn [Js.eq_opt String.eqb Ascii.eqb Bool.eqb andb].
  unfold Frame.lerp. lra.
Qed.

(** C4: from the resting state, every flood frame raises the plane
    strictly, stays strictly below the tier target [floodRisk / 2] (tiers 15
    and 5) and closes 2% of the remaining gap; once the mode is not
    [flood], every frame from a height above [-5] lowers the plane strictly,
    stays above [-5] and closes 5% of the gap, a faster contraction than the
    rise. *)
Theorem C4_flood_rise_recede :
  forall (p : option result) (cut : bool) (t0 dt : R),
    (Scene.floodRisk p = 15 \/ Scene.floodRisk p = 5)
    /\ (forall n : nat,
          let y := Frame.water_y
                     (Frame.run p cut (Some "flood"%string) t0 dt n Frame.initial_state) in
          let y' := Frame.water_y
                     (Frame.run p cut (Some "flood"%string) t0 dt (S n) Frame.initial_state) in
          y < y' < Scene.floodRisk p / 2
          /\ Scene.floodRisk p / 2 - y' = (1 - 0.02) * (Scene.floodRisk p / 2 - y))
    /\ (forall (mode : option string) (s : Frame.frame_state) (n : nat),
          Js.eq_opt mode "flood"%string = false -> -5 < Frame.water_y s ->
          let y := Frame.water_y (Frame.run p cut mode t0 dt n s) in
          let y' := Frame.water_y (Frame.run p cut mode t0 dt (S n) s) in
          -5 < y' < y /\ y' - (-5) = (1 - 0.05) * (y - (-5)))
    /\ 1 - 0.05 < 1 - 0.02.
Proof.
  intros p cut t0 dt.
  pose proof (floodRisk_tiers p) as Htier.
  split; [exact Htier |]. split; [| split].
  - intros n y y'.
    assert (Hy : y < Scene.floodRisk p / 2).
    { apply flood_below_target. simpl. unfold Q2R in *; simpl in *. lra. }
    unfold y'. rewrite run_S_end, water_y_useFrame. fold y.
    cbn [Js.eq_opt String.eqb Ascii.eqb Bool.eqb andb].
    unfold Frame.lerp. unfold Q2R; simpl. repeat split; lra.
  - intros mode s n Hm Hs.
    assert (Hinv : forall k t (s0 : Frame.frame_state), -5 < Frame.water_y s0 ->
              -5 < Frame.water_y (Frame.run p cut mode t dt k s0)).
    { induction k as [| k IH]; intros t s0 H0; [exact H0 |].
      simpl Frame.run. apply IH. rewrite water_y_useFrame, Hm.
      unfold Frame.lerp. unfold Q2R; simpl. lra. }
    intros y y'.
    assert (Hy : -5 < y) by (apply Hinv; exact Hs).
    unfold y'. rewrite run_S_end, water_y_useFrame, Hm. fold y.
    unfold Frame.lerp. unfold Q2R; simpl. repeat split; lra.
  - unfold Q2R; simpl. lra.
Qed.

(** ** C5: roll and pitch outside quake mode *)

(** C5: on every frame whose mode is not [quake] (idle, flood, fire or any
    other), roll ([rotation.z]) and pitch ([rotation.x]) become
    [lerp(current, 0, 0.1)], from any prior state (so also on the first
    frame after quake); a non-zero angle stays non-zero. *)
Theorem C5_non_quake_decay :
  forall (p : option result) (cut : bool) (mode : option string) (t : R)
         (s : Frame.frame_state),
    Js.eq_opt mode "quake"%string = false ->
    Frame.rot_z (Frame.useFrame p cut mode t s) = Frame.lerp (Frame.rot_z s) 0 0.1
    /\ Frame.rot_x (Frame.useFrame p cut mode t s) = Frame.lerp (Frame.rot_x s) 0 0.1
    /\ (Frame.rot_z s <> 0 -> Frame.rot_z (Frame.useFrame p cut mode t s) <> 0)
    /\ (Frame.rot_x s <> 0 -> Frame.rot_x (Frame.useFrame p cut mode t s) <> 0).
Proof.
  intros p cut mode t s Hq.
  assert (Hz : Frame.rot_z (Frame.useFrame p cut mode t s) = Frame.lerp (Frame.rot_z s) 0 0.1).
  { unfold Frame.useFrame, Frame.flood, Frame.seismic, Frame.base_rotation. rewrite Hq.
    destruct (Js.eq_opt mode "flood"%string);
      destruct (negb (Scene.truthy mode) && negb cut); reflexivity. }
  assert (Hx : Frame.rot_x (Frame.useFrame p cut mode t s) = Frame.lerp (Frame.rot_x s) 0 0.1).
  { unfold Frame.useFrame, Frame.flood, Frame.seismic, Frame.base_rotation. rewrite Hq.
    destruct (Js.eq_opt mode "flood"%string);
      destruct (negb (Scene.truthy mode) && negb cut); reflexivity. }
  rewrite Hz, Hx. unfold Frame.lerp. unfold Q2R; simpl.
  repeat split; try reflexivity; intros H0 H1; apply H0; lra.
Qed.

(** ** C6: cutaway and the floor descriptors *)

Lemma map_g_floor_mapi_from (e : Scene.env) (l : list Geometry.floor) :
  forall k, map Scene.g_floor (Scene.mapi_from (Scene.floor_group_of e) k l) = l.
Proof. induction l as [| f l IH]; intro k; simpl; [reflexivity | now rewrite IH]. Qed.

Lemma floor_groups_floors (p : option result) (cut : bool) (mode : option string) :
  map Scene.g_floor (Scene.sc_floor_groups (Scene.DetailedBuilding p cut mode))
  = Geometry.floors (geoParams p).
Proof. apply map_g_floor_mapi_from. Qed.

(** C6 (as stated, refuted): the claim says cutaway changes only which
    layers are drawn and the clipping half-space.  On the same floor the
    facade mesh is drawn in both modes with a different material, and the
    idle spin of the per-frame update stops. *)
Lemma C6_counterexample :
  Scene.mesh_material (Scene.facade (Scene.env_of None true None)
                         (Geometry.floor_at 1 0 0))
  <> Scene.mesh_material (Scene.facade (Scene.env_of None false None)
                            (Geometry.floor_at 1 0 0))
  /\ Frame.rot_y (Frame.useFrame None true None 0 Frame.initial_state)
     <> Frame.rot_y (Frame.useFrame None false None 0 Frame.initial_state).
Proof.
  split.
  - intro H. apply (f_equal (option_map Scene.m_transmission)) in H.
    cbn in H. injection H as H. unfold Q2R in H; simpl in H. lra.
  - cbn. unfold Frame.lerp. unfold Q2R; simpl. lra.
Qed.

(** C6 (amended): toggling cutaway leaves the floor descriptor array
    (offset, scale, rotation, id, diagrid-node flag) unchanged, in both
    directions; besides the drawn layers and the clipping planes it changes
    the facade's transmission (0.4 to 0.8) and, outside fire mode, its
    opacity (0.7 to 0.2), and with cutaway on the per-frame update never
    turns the model about its vertical axis (no idle spin, no quake
    torsion). *)
Theorem C6_cutaway_keeps_floors :
  (forall (p : option result) (mode : option string),
      map Scene.g_floor (Scene.sc_floor_groups (Scene.DetailedBuilding p true mode))
      = map Scene.g_floor (Scene.sc_floor_groups (Scene.DetailedBuilding p false mode))
      /\ map Scene.g_floor (Scene.sc_floor_groups (Scene.DetailedBuilding p true mode))
         = Geometry.floors (geoParams p))
  /\ (forall (p : option result) (cut : bool) (mode : option string) (f : Geometry.floor),
        option_map Scene.m_transmission
          (Scene.mesh_material (Scene.facade (Scene.env_of p cut mode) f))
        = Some (Some (if cut then 0.8 else 0.4))
        /\ option_map Scene.m_opacity
             (Scene.mesh_material (Scene.facade (Scene.env_of p cut mode) f))
           = Some (Some (if Scene.is_fire mode then 0.3 else if cut then 0.2 else 0.7)))
  /\ (forall (p : option result) (mode : option string) (t : R) (s : Frame.frame_state),
        Frame.rot_y (Frame.useFrame p true mode t s) = Frame.rot_y s).
Proof.
  split; [| split].
  - intros p mode. rewrite !floor_groups_floors. split; reflexivity.
  - intros p cut mode f. split; reflexivity.
  - intros p mode t s.
    unfold Frame.useFrame, Frame.flood, Frame.seismic, Frame.base_rotation.
    rewrite andb_false_r.
    destruct (Js.eq_opt mode "quake"%string); destruct (Js.eq_opt mode "flood"%string);
      reflexivity.
Qed.

(** ** C7: column style and belt trusses per floor *)

Lemma column_styles_app (l1 l2 : list Scene.mesh) :
  Observe.column_styles (l1 ++ l2) = Observe.column_styles l1 ++ Observe.column_styles l2.
Proof. unfold Observe.column_styles. apply flat_map_app. Qed.

Lemma belt_count_app (l1 l2 : list Scene.mesh) :
  Observe.belt_count (l1 ++ l2) = (Observe.belt_count l1 + Observe.belt_count l2)%nat.
Proof. unfold Observe.belt_count. rewrite filter_app, length_app. reflexivity. Qed.

Lemma column_styles_map_none {A : Type} (h : A -> Scene.mesh) (l : list A) :
  (forall x, Observe.column_style_of (h x) = None) ->
  Observe.column_styles (map h l) = [].
Proof.
  intro H. induction l as [| x l IH]; [reflexivity |].
  simpl. rewrite H. exact IH.
Qed.

Lemma belt_count_map_none {A : Type} (h : A -> Scene.mesh) (l : list A) :
  (forall x, Observe.is_belt (h x) = false) -> Observe.belt_count (map h l) = 0%nat.
Proof.
  intro H. unfold Observe.belt_count. induction l as [| x l IH]; [reflexivity |].
  simpl. rewrite H. exact IH.
Qed.

Lemma column_styles_mapi {A : Type} (st : Scene.column_style)
  (h : nat -> A -> Scene.mesh) (l : list A) :
  (forall n x, Observe.column_style_of (h n x) = Some st) ->
  forall k, Observe.column_styles (Scene.mapi_from h k l) = repeat st (length l).
Proof.
  intro H. induction l as [| x l IH]; intro k; [reflexivity |].
  simpl. rewrite H. simpl. f_equal. apply IH.
Qed.

Lemma belt_count_mapi {A : Type} (h : nat -> A -> Scene.mesh) (l : list A) :
  (forall n x, Observe.is_belt (h n x) = false) ->
  forall k, Observe.belt_count (Scene.mapi_from h k l) = 0%nat.
Proof.
  intro H. unfold Observe.belt_count. induction l as [| x l IH]; intro k; [reflexivity |].
  simpl. rewrite H. apply IH.
Qed.

Lemma map_rotation_mapi {A : Type} (h : nat -> A -> Scene.mesh) (r : nat -> R * R * R)
  (l : list A) :
  (forall n x, Scene.mesh_rotation (h n x) = r n) ->
  forall k, map Scene.mesh_rotation (Scene.mapi_from h k l)
            = Scene.mapi_from (fun n _ => r n) k l.
Proof.
  intro H. induction l as [| x l IH]; intro k; [reflexivity |].
  simpl. rewrite H. f_equal. apply IH.
Qed.

(** Every child of a floor group other than the structural overlay. *)
Lemma floor_children_split (e : Scene.env) (i : nat) (f : Geometry.floor) :
  Scene.floor_children e i f
  = ([Scene.slab e f] ++ Scene.cutaway_layers e f i ++ Scene.balconies e f i
     ++ Scene.mechanical e f i ++ [Scene.facade e f] ++ Scene.window_frames e f i)
    ++ Scene.columns e f ++ Scene.belt_truss e f i.
Proof. unfold Scene.floor_children, Scene.structural_overlay. simpl. now rewrite <- !app_assoc. Qed.

(** No column and no belt truss among a list of meshes. *)
Definition no_columns_or_belts (l : list Scene.mesh) : Prop :=
  Observe.column_styles l = [] /\ Observe.belt_count l = 0%nat.

Lemma no_cb_app (l1 l2 : list Scene.mesh) :
  no_columns_or_belts l1 -> no_columns_or_belts l2 -> no_columns_or_belts (l1 ++ l2).
Proof.
  unfold no_columns_or_belts. rewrite column_styles_app, belt_count_app.
  intros [H1 H2] [H3 H4]. rewrite H1, H2, H3, H4. split; reflexivity.
Qed.

Lemma no_cb_map {A : Type} (h : A -> Scene.mesh) (l : list A) :
  (forall x, Observe.column_style_of (h x) = None /\ Observe.is_belt (h x) = false) ->
  no_columns_or_belts (map h l).
Proof.
  intro H. split.
  - apply column_styles_map_none. intro x. apply H.
  - apply belt_count_map_none. intro x. apply H.
Qed.

Ltac solve_no_cb :=
  repeat apply no_cb_app;
  first [ split; reflexivity
        | apply no_cb_map; intro; split; reflexivity ].

Lemma other_layers_no_columns (e : Scene.env) (i : nat) (f : Geometry.floor) :
  no_columns_or_belts
    ([Scene.slab e f] ++ Scene.cutaway_layers e f i ++ Scene.balconies e f i
     ++ Scene.mechanical e f i ++ [Scene.facade e f] ++ Scene.window_frames e f i).
Proof.
  apply no_cb_app; [solve_no_cb |].
  apply no_cb_app.
  { unfold Scene.cutaway_layers. destruct (Scene.e_cutaway e); [| solve_no_cb].
    apply no_cb_app; [solve_no_cb |].
    change (Scene.inner_layer e f :: Scene.insulation e f i ++ Scene.labels e i)
      with ([Scene.inner_layer e f] ++ Scene.insulation e f i ++ Scene.labels e i).
    apply no_cb_app; [solve_no_cb |].
    unfold Scene.insulation, Scene.labels.
    apply no_cb_app; [destruct (i mod 3 =? 0)%nat | destruct (i =? 15)%nat];
      solve_no_cb. }
  apply no_cb_app.
  { unfold Scene.balconies.
    destruct (negb (Scene.e_cutaway e) && (i mod 5 =? 0)%nat && (0 <? i)%nat);
      solve_no_cb. }
  apply no_cb_app.
  { unfold Scene.mechanical. destruct ((i mod 15 =? 0)%nat && (0 <? i)%nat); solve_no_cb. }
  apply no_cb_app; [solve_no_cb |].
  unfold Scene.window_frames. destruct (negb (Scene.e_cutaway e) && (i mod 2 =? 0)%nat);
    solve_no_cb.
Qed.

Lemma colPositions_length (ty : option string) (sc : R) :
  (3 <= length (Scene.colPositions ty sc))%nat.
Proof.
  unfold Scene.colPositions.
  repeat match goal with |- context [if ?b then _ else _] => destruct b end;
    simpl; lia.
Qed.

(** C7: on every floor the drawn columns all have the one style that the
    chain [hasDiagrid], else [hasThickColumns], else standard selects (one
    column per layout position, at least three); diagrid members tilt by
    [+PI/4] at even and [-PI/4] at odd position index; and exactly one belt
    truss is drawn when [hasOutriggers] and [i mod 10 = 0], none otherwise,
    whatever the column style. *)
Theorem C7_column_style_and_belts :
  forall (e : Scene.env) (i : nat) (f : Geometry.floor),
    let sr := Scene.e_structureRec e in
    let pos := Scene.colPositions (Scene.e_type e) (Geometry.f_scale f) in
    Observe.column_styles (Scene.floor_children e i f)
    = repeat (Observe.chosen_style sr) (length pos)
    /\ (3 <= length pos)%nat
    /\ map Scene.mesh_rotation (Scene.columns e f)
       = (if Style.hasDiagrid sr
          then Scene.mapi (fun idx _ => (0, 0, Observe.diagrid_tilt idx)) pos
          else Scene.mapi (fun _ _ => Scene.origin) pos)
    /\ Observe.belt_count (Scene.floor_children e i f)
       = (if Style.hasOutriggers sr && Nat.eqb (i mod 10) 0 then 1 else 0)%nat.
Proof.
  intros e i f sr pos.
  destruct (other_layers_no_columns e i f) as [Hc Hb].
  assert (Hbelt_cs : Observe.column_styles (Scene.belt_truss e f i) = []).
  { unfold Scene.belt_truss.
    destruct (Style.hasOutriggers (Scene.e_structureRec e) && (i mod 10 =? 0)%nat);
      reflexivity. }
  assert (Hcol_b : Observe.belt_count (Scene.columns e f) = 0%nat).
  { unfold Scene.columns, Scene.mapi.
    destruct (Style.hasDiagrid (Scene.e_structureRec e));
      [| destruct (Style.hasThickColumns (Scene.e_structureRec e))];
      apply belt_count_mapi; reflexivity. }
  rewrite floor_children_split.
  split; [| split; [| split]].
  - rewrite column_styles_app, Hc, column_styles_app, Hbelt_cs, app_nil_r. simpl.
    unfold Scene.columns, Scene.mapi, Observe.chosen_style. fold sr pos.
    destruct (Style.hasDiagrid sr); [| destruct (Style.hasThickColumns sr)];
      apply column_styles_mapi; reflexivity.
  - apply colPositions_length.
  - unfold Scene.columns, Scene.mapi. fold sr pos.
    destruct (Style.hasDiagrid sr); [| destruct (Style.hasThickColumns sr)];
      apply map_rotation_mapi; reflexivity.
  - rewrite belt_count_app, Hb, belt_count_app, Hcol_b, !Nat.add_0_l.
    unfold Scene.belt_truss. fold sr.
    destruct (Style.hasOutriggers sr && (i mod 10 =? 0)%nat); reflexivity.
Qed.

(** ** C8: captureSnapshot *)

(** C8: with no canvas in the document [captureSnapshot] returns [null]
    (the call is total); with a canvas it returns the PNG data URL of the
    drawing buffer of the first canvas in document order. *)
Theorem C8_captureSnapshot :
  forall (encode : list nat -> string) (doc : list Snapshot.element),
    (Snapshot.has_canvas doc = false -> Snapshot.captureSnapshot encode doc = None)
    /\ (Snapshot.has_canvas doc = true ->
        exists c, Snapshot.querySelector_canvas doc = Some c
                  /\ Snapshot.captureSnapshot encode doc
                     = Some ("data:image/png;base64," ++ encode (Snapshot.cv_pixels c))%string).
Proof.
  intros encode doc.
  unfold Snapshot.captureSnapshot, Snapshot.toDataURL, Snapshot.has_canvas.
  induction doc as [| el doc IH].
  - split; [reflexivity | discriminate].
  - destruct el as [c | tg]; simpl.
    + split; [discriminate | intros _; exists c; split; reflexivity].
    + exact IH.
Qed.

(** ** C9: floor 0 and the monotonicity of the scale *)

(** C9: for every [geometry_params], floor 0 has scale 1 and rotation 0; if
    the taper is a number [t < 1] the scales are non-increasing along the
    floors; if the taper is 1 every floor has scale 1. *)
Theorem C9_scale_rotation_shape :
  forall g : geometry_params,
    nth 0 (map Geometry.f_scale (Geometry.floors g)) 0 = 1
    /\ nth 0 (map Geometry.f_rotation (Geometry.floors g)) 0 = 0
    /\ (forall t : R, gp_taper g = Some t -> t < 1 ->
          forall i j : nat, (i <= j < 30)%nat ->
            nth j (map Geometry.f_scale (Geometry.floors g)) 0
            <= nth i (map Geometry.f_scale (Geometry.floors g)) 0)
    /\ (gp_taper g = Some 1 ->
          forall i : nat, (i < 30)%nat ->
            nth i (map Geometry.f_scale (Geometry.floors g)) 0 = 1).
Proof.
  intro g. split; [| split; [| split]].
  - rewrite scale_at by lia. simpl INR. field.
  - rewrite rotation_at by lia. simpl INR. field.
  - intros t Ht Hlt i j Hij.
    rewrite !scale_at by lia.
    assert (HT : Geometry.taperRatio g <= 1).
    { unfold Geometry.taperRatio, Js.num_or. rewrite Ht.
      destruct (Req_EM_T t 0); unfold Q2R; simpl; lra. }
    assert (Hle : INR i <= INR j) by (apply le_INR; lia).
    assert (H0 : 0 <= 1 - Geometry.taperRatio g) by lra.
    assert (Hd : INR i / 30 <= INR j / 30) by lra.
    nra.
  - intros Ht i Hi. rewrite scale_at by exact Hi.
    unfold Geometry.taperRatio. rewrite Ht, num_or_nonzero by lra. ring.
Qed.

(** ** C10: the height field *)

(** C10: replacing only [geometry_params.height] leaves the 30-floor
    descriptor array, every part of the scene other than the cutaway cut
    face (the whole scene when cutaway is off) and the per-frame update
    unchanged; the cut face is placed at [height / 25] with side
    [height / 5]. *)
Theorem C10_height_only_cut_face :
  forall (r : result) (h : option R) (cut : bool) (mode : option string),
    let p := Some r in
    let p' := Some (Observe.with_height r h) in
    Geometry.floors (geoParams p') = Geometry.floors (geoParams p)
    /\ length (Geometry.floors (geoParams p)) = 30%nat
    /\ Scene.sc_water (Scene.DetailedBuilding p' cut mode)
       = Scene.sc_water (Scene.DetailedBuilding p cut mode)
    /\ Scene.sc_foundation (Scene.DetailedBuilding p' cut mode)
       = Scene.sc_foundation (Scene.DetailedBuilding p cut mode)
    /\ Scene.sc_pilings (Scene.DetailedBuilding p' cut mode)
       = Scene.sc_pilings (Scene.DetailedBuilding p cut mode)
    /\ Scene.sc_core (Scene.DetailedBuilding p' cut mode)
       = Scene.sc_core (Scene.DetailedBuilding p cut mode)
    /\ Scene.sc_floor_groups (Scene.DetailedBuilding p' cut mode)
       = Scene.sc_floor_groups (Scene.DetailedBuilding p cut mode)
    /\ Scene.DetailedBuilding p' false mode = Scene.DetailedBuilding p false mode
    /\ option_map Scene.mesh_position (Scene.sc_cut_face (Scene.DetailedBuilding p' true mode))
       = Some (-0.05, Geometry.height (geoParams p') / 25, 0)
    /\ option_map Scene.mesh_geometry (Scene.sc_cut_face (Scene.DetailedBuilding p' true mode))
       = Some [Scene.PlaneGeometry (Geometry.height (geoParams p') / 5)
                 (Geometry.height (geoParams p') / 5)]
    /\ (forall (t : R) (s : Frame.frame_state),
          Frame.useFrame p' cut mode t s = Frame.useFrame p cut mode t s).
Proof.
  intros r h cut mode p p'.
  destruct r as [[[ty hh tp tw] |] zone fr wind mat st]; subst p p';
    repeat split; reflexivity.
Qed.

(** ** Witnesses: the hypotheses of the claims' theorems at concrete inputs *)

Lemma C3_witness :
  gp_taper cylinder_params = Some 0.6
  /\ nth 29 (map Geometry.f_scale (Geometry.floors cylinder_params)) 0
     = 1 - (1 - 0.6) * (INR 29 / 30).
Proof.
  split; [reflexivity |].
  refine (proj1 (proj1 C3_floor_formula cylinder_params 0.6 90 29%nat
                   eq_refl _ eq_refl _)).
  - intro H0. unfold Q2R in H0; simpl in H0. lra.
  - lia.
Defined.

Lemma C4_witness :
  -5 < Frame.water_y (Frame.run None false (Some "flood"%string) 0 1 1 Frame.initial_state)
  /\ Frame.water_y
       (Frame.run None false None 0 1 1
          (Frame.run None false (Some "flood"%string) 0 1 1 Frame.initial_state))
     < Frame.water_y (Frame.run None false (Some "flood"%string) 0 1 1 Frame.initial_state).
Proof.
  destruct (C4_flood_rise_recede None false 0 1) as [_ [Hup [Hdown _]]].
  pose proof (proj1 (proj1 (Hup 0%nat))) as H1.
  split; [exact H1 |].
  exact (proj2 (proj1 (Hdown None
            (Frame.run None false (Some "flood"%string) 0 1 1 Frame.initial_state)
            0%nat eq_refl H1))).
Defined.

Lemma C5_witness :
  let q := Frame.useFrame None false (Some "quake"%string) 0 Frame.initial_state in
  Frame.rot_z (Frame.useFrame None false (Some "flood"%string) 1 q)
  = Frame.lerp (Frame.rot_z q) 0 0.1.
Proof.
  intro q.
  exact (proj1 (C5_non_quake_decay None false (Some "flood"%string) 1 q eq_refl)).
Defined.

Definition viewer_document : list Snapshot.element :=
  [Snapshot.EOther "div"%string; Snapshot.ECanvas (Snapshot.mk_canvas [7; 7; 7]%nat)].

Lemma C8_witness :
  Snapshot.captureSnapshot (fun _ => "iVBORw0KGgo"%string)
    [Snapshot.EOther "div"%string] = None
  /\ exists c, Snapshot.querySelector_canvas viewer_document = Some c
     /\ Snapshot.captureSnapshot (fun _ => "iVBORw0KGgo"%string) viewer_document
        = Some ("data:image/png;base64," ++ "iVBORw0KGgo")%string.
Proof.
  split.
  - exact (proj1 (C8_captureSnapshot (fun _ => "iVBORw0KGgo"%string)
                    [Snapshot.EOther "div"%string]) eq_refl).
  - exact (proj2 (C8_captureSnapshot (fun _ => "iVBORw0KGgo"%string) viewer_document)
             eq_refl).
Defined.

Lemma C9_witness :
  nth 29 (map Geometry.f_scale (Geometry.floors cylinder_params)) 0
  <= nth 0 (map Geometry.f_scale (Geometry.floors cylinder_params)) 0
  /\ nth 10 (map Geometry.f_scale (Geometry.floors untyped_params)) 0 = 1.
Proof.
  split.
  - refine (proj1 (proj2 (proj2 (C9_scale_rotation_shape cylinder_params)))
              0.6 eq_refl _ 0%nat 29%nat _).
    + unfold Q2R; simpl; lra.
    + lia.
  - refine (proj2 (proj2 (proj2 (C9_scale_rotation_shape untyped_params)))
              eq_refl 10%nat _).
    lia.
Defined.

(* ================================================================== *)
(** * Further properties of the viewer and its caller *)

(** ** Per-frame update *)

Lemma seismicPGA_tiers (p : option result) :
  Scene.seismicPGA p = 0.05 \/ Scene.seismicPGA p = 0.02.
Proof.
  unfold Scene.seismicPGA.
  destruct p as [r |]; [destruct (r_seismic_zone r) as [z |] |]; auto.
  destruct (Js.includes z "High"); auto.
Qed.

Lemma roll_pitch_step (p : option result) (cut : bool) (mode : option string) (t : R)
  (s : Frame.frame_state) :
  Js.eq_opt mode "quake"%string = false ->
  Frame.rot_z (Frame.useFrame p cut mode t s) = Frame.lerp (Frame.rot_z s) 0 0.1
  /\ Frame.rot_x (Frame.useFrame p cut mode t s) = Frame.lerp (Frame.rot_x s) 0 0.1.
Proof.
  intro Hq.
  unfold Frame.useFrame, Frame.flood, Frame.seismic, Frame.base_rotation. rewrite Hq.
  destruct (Js.eq_opt mode "flood"%string);
    destruct (negb (Scene.truthy mode) && negb cut); split; reflexivity.
Qed.

(** In quake mode roll and pitch are set straight to the sine terms (no
    smoothing from the previous state), so they never exceed
    [2 * seismicPGA] in size (at most 0.1); the torsion added to the yaw is
    at most [seismicPGA / 2] per frame and is skipped in cutaway mode. *)
Theorem quake_sway_bounded :
  forall (p : option result) (cut : bool) (t : R) (s : Frame.frame_state),
    let s' := Frame.useFrame p cut (Some "quake"%string) t s in
    Frame.rot_z s' = sin (t * 5) * Scene.seismicPGA p * 2
    /\ Frame.rot_x s' = cos (t * 4) * Scene.seismicPGA p * 2
    /\ Rabs (Frame.rot_z s') <= 2 * Scene.seismicPGA p <= 0.1
    /\ Rabs (Frame.rot_x s') <= 2 * Scene.seismicPGA p
    /\ Rabs (Frame.rot_y s' - Frame.rot_y s) <= Scene.seismicPGA p / 2
    /\ (cut = true -> Frame.rot_y s' = Frame.rot_y s).
Proof.
  intros p cut t s s'.
  assert (Hpga : 0 < Scene.seismicPGA p <= 0.05).
  { destruct (seismicPGA_tiers p) as [H | H]; rewrite H; unfold Q2R; simpl; lra. }
  assert (Hz : Frame.rot_z s' = sin (t * 5) * Scene.seismicPGA p * 2) by reflexivity.
  assert (Hx : Frame.rot_x s' = cos (t * 4) * Scene.seismicPGA p * 2) by reflexivity.
  assert (Hy : Frame.rot_y s' = if cut then Frame.rot_y s
                                else Frame.rot_y s + sin (t * 8) * (Scene.seismicPGA p / 2))
    by (unfold s'; destruct cut; reflexivity).
  pose proof (SIN_bound (t * 5)). pose proof (COS_bound (t * 4)).
  pose proof (SIN_bound (t * 8)).
  split; [exact Hz |]. split; [exact Hx |].
  split; [split; [rewrite Hz; apply Rabs_le; split; nra | unfold Q2R in *; simpl in *; lra] |].
  split; [rewrite Hx; apply Rabs_le; split; nra |].
  split.
  - rewrite Hy. destruct cut.
    + rewrite Rminus_diag, Rabs_R0. lra.
    + replace (Frame.rot_y s + sin (t * 8) * (Scene.seismicPGA p / 2) - Frame.rot_y s)
        with (sin (t * 8) * (Scene.seismicPGA p / 2)) by ring.
      apply Rabs_le; split; nra.
  - intro Hc. rewrite Hy, Hc. reflexivity.
Qed.

(** Outside quake mode roll and pitch shrink geometrically: after [n]
    frames they are [0.9 ^ n] times their starting values. *)
Theorem non_quake_geometric_decay :
  forall (p : option result) (cut : bool) (mode : option string) (dt : R) (n : nat)
         (t0 : R) (s : Frame.frame_state),
    Js.eq_opt mode "quake"%string = false ->
    Frame.rot_z (Frame.run p cut mode t0 dt n s) = 0.9 ^ n * Frame.rot_z s
    /\ Frame.rot_x (Frame.run p cut mode t0 dt n s) = 0.9 ^ n * Frame.rot_x s.
Proof.
  intros p cut mode dt n. induction n as [| n IH]; intros t0 s Hq.
  - simpl. split; ring.
  - simpl Frame.run. destruct (IH (t0 + dt) (Frame.useFrame p cut mode t0 s) Hq) as [Hz Hx].
    destruct (roll_pitch_step p cut mode t0 s Hq) as [Hz1 Hx1].
    rewrite Hz, Hx, Hz1, Hx1. unfold Frame.lerp. unfold Q2R; simpl. split; field.
Qed.

(** Whatever sequence of frames runs from the mounted state (any mix of
    modes, cutaway flags and clock values), the flood plane stays between
    the resting height [-5] and the tier target [floodRisk / 2], and its
    opacity stays in [[0, 0.8]]. *)
Theorem water_bounds_any_script :
  forall (p : option result) (frames : list (bool * option string * R)),
    let s := Observe.run_script p frames Frame.initial_state in
    -5 <= Frame.water_y s <= Scene.floodRisk p / 2
    /\ 0 <= Frame.water_opacity s <= 0.8.
Proof.
  intros p frames.
  assert (HT : 5 <= Scene.floodRisk p) by (destruct (floodRisk_tiers p) as [H | H]; lra).
  assert (Hopa : forall s cut mode t, 0 <= Frame.water_opacity s <= 0.8 ->
            0 <= Frame.water_opacity (Frame.useFrame p cut mode t s) <= 0.8).
  { intros s cut mode t Hs.
    unfold Frame.useFrame, Frame.flood, Frame.seismic, Frame.base_rotation.
    destruct (Js.eq_opt mode "flood"%string);
      destruct (Js.eq_opt mode "quake"%string);
      destruct (negb (Scene.truthy mode) && negb cut);
      cbn [Frame.water_opacity]; unfold Frame.lerp; unfold Q2R in *; simpl in *; lra. }
  assert (Hinv : forall fr s,
            (-5 <= Frame.water_y s <= Scene.floodRisk p / 2
             /\ 0 <= Frame.water_opacity s <= 0.8) ->
            -5 <= Frame.water_y (Observe.run_script p fr s) <= Scene.floodRisk p / 2
            /\ 0 <= Frame.water_opacity (Observe.run_script p fr s) <= 0.8).
  { induction fr as [| [[cut mode] t] fr IH]; intros s Hs; [exact Hs |].
    simpl Observe.run_script. apply IH. split.
    - rewrite water_y_useFrame.
      destruct (Js.eq_opt mode "flood"%string); unfold Frame.lerp; unfold Q2R; simpl; lra.
    - apply Hopa, Hs. }
  apply Hinv. simpl. unfold Q2R; simpl. lra.
Qed.

(** ** Style resolver *)






(** Every style the resolver can pick has roughness and metalness in
    [[0, 1]] (valid PBR values), and its emissive colour and intensity are
    either both set or both absent. *)
Theorem materialStyle_pbr_ranges :
  forall s : string,
    let st := Style.materialStyle s in
    0 <= Style.ms_roughness st <= 1 /\ 0 <= Style.ms_metalness st <= 1
    /\ (Style.ms_emissive st = None <-> Style.ms_emissiveIntensity st = None).
Proof.
  intro s. unfold Style.materialStyle.
  repeat match goal with |- context [if ?b then _ else _] => destruct b end;
    cbn; unfold Q2R; simpl; (split; [lra | split; [lra | split; intro H; discriminate H || reflexivity]]).
Qed.

(** ** Per-floor layer schedule *)

Lemma count_tag_app (pt : Scene.tag -> bool) (l1 l2 : list Scene.mesh) :
  Observe.count_tag pt (l1 ++ l2) = (Observe.count_tag pt l1 + Observe.count_tag pt l2)%nat.
Proof. unfold Observe.count_tag. rewrite filter_app, length_app. reflexivity. Qed.

Lemma count_tag_map {A : Type} (pt : Scene.tag -> bool) (t : Scene.tag)
  (h : A -> Scene.mesh) (l : list A) :
  (forall x, Scene.mesh_tag (h x) = t) ->
  Observe.count_tag pt (map h l) = if pt t then length l else 0%nat.
Proof.
  intro H. unfold Observe.count_tag. induction l as [| x l IH].
  - destruct (pt t); reflexivity.
  - simpl. rewrite H. destruct (pt t); simpl in *; rewrite IH; reflexivity.
Qed.

Lemma count_tag_mapi_from {A : Type} (pt : Scene.tag -> bool) (t : Scene.tag)
  (h : nat -> A -> Scene.mesh) (l : list A) :
  (forall n x, Scene.mesh_tag (h n x) = t) ->
  forall k, Observe.count_tag pt (Scene.mapi_from h k l) = if pt t then length l else 0%nat.
Proof.
  intro H. unfold Observe.count_tag. induction l as [| x l IH]; intro k.
  - destruct (pt t); reflexivity.
  - simpl. rewrite H. destruct (pt t); simpl in *; rewrite IH; reflexivity.
Qed.

(** The layers of a floor group, counted tag by tag. *)
Lemma count_floor_children (pt : Scene.tag -> bool) (e : Scene.env) (i : nat)
  (f : Geometry.floor) :
  Observe.count_tag pt (Scene.floor_children e i f)
  = ((if pt Scene.TSlab then 1 else 0)
     + Observe.count_tag pt (Scene.cutaway_layers e f i)
     + Observe.count_tag pt (Scene.balconies e f i)
     + Observe.count_tag pt (Scene.mechanical e f i)
     + (if pt Scene.TFacade then 1 else 0)
     + Observe.count_tag pt (Scene.window_frames e f i)
     + (if pt (Scene.TColumn (Observe.chosen_style (Scene.e_structureRec e)))
        then length (Scene.colPositions (Scene.e_type e) (Geometry.f_scale f)) else 0)
     + Observe.count_tag pt (Scene.belt_truss e f i))%nat.
Proof.
  assert (Hcol : Observe.count_tag pt (Scene.columns e f)
                 = if pt (Scene.TColumn (Observe.chosen_style (Scene.e_structureRec e)))
                   then length (Scene.colPositions (Scene.e_type e) (Geometry.f_scale f))
                   else 0%nat).
  { unfold Scene.columns, Scene.mapi, Observe.chosen_style.
    destruct (Style.hasDiagrid (Scene.e_structureRec e));
      [| destruct (Style.hasThickColumns (Scene.e_structureRec e))];
      apply count_tag_mapi_from; reflexivity. }
  unfold Scene.floor_children, Scene.structural_overlay.
  change (Scene.slab e f :: ?l) with ([Scene.slab e f] ++ l).
  change (Scene.facade e f :: ?l) with ([Scene.facade e f] ++ l).
  rewrite !count_tag_app, Hcol.
  unfold Observe.count_tag at 1 5. simpl.
  destruct (pt Scene.TSlab), (pt Scene.TFacade); simpl; lia.
Qed.

Lemma count_cutaway_layers (pt : Scene.tag -> bool) (e : Scene.env) (f : Geometry.floor)
  (i : nat) :
  Observe.count_tag pt (Scene.cutaway_layers e f i)
  = if Scene.e_cutaway e then
      ((if pt Scene.TRib then 4 else 0) + (if pt Scene.TInnerMaterial then 1 else 0)
       + (if pt Scene.TInsulation && Nat.eqb (i mod 3) 0 then 1 else 0)
       + Observe.count_tag pt (Scene.labels e i))%nat
    else 0%nat.
Proof.
  unfold Scene.cutaway_layers. destruct (Scene.e_cutaway e); [| reflexivity].
  change (Scene.inner_layer e f :: ?l) with ([Scene.inner_layer e f] ++ l).
  rewrite !count_tag_app.
  assert (Hr : Observe.count_tag pt (Scene.ribs e) = if pt Scene.TRib then 4%nat else 0%nat)
    by (unfold Scene.ribs; apply count_tag_map; reflexivity).
  assert (Hn : Observe.count_tag pt [Scene.inner_layer e f]
               = if pt Scene.TInnerMaterial then 1%nat else 0%nat)
    by (unfold Observe.count_tag; simpl; destruct (pt Scene.TInnerMaterial); reflexivity).
  assert (Hs : Observe.count_tag pt (Scene.insulation e f i)
               = if pt Scene.TInsulation && Nat.eqb (i mod 3) 0 then 1%nat else 0%nat).
  { unfold Scene.insulation.
    destruct (i mod 3 =? 0)%nat; unfold Observe.count_tag; simpl;
      destruct (pt Scene.TInsulation); reflexivity. }
  rewrite Hr, Hn, Hs. lia.
Qed.

Lemma count_labels (pt : Scene.tag -> bool) (e : Scene.env) (i : nat) :
  (forall s, pt (Scene.TLabel s) = true) ->
  Observe.count_tag pt (Scene.labels e i) = if Nat.eqb i 15 then 4%nat else 0%nat.
Proof.
  intro H. unfold Scene.labels. destruct (i =? 15)%nat; [| reflexivity].
  unfold Observe.count_tag. simpl. rewrite !H. reflexivity.
Qed.

Lemma count_labels_none (pt : Scene.tag -> bool) (e : Scene.env) (i : nat) :
  (forall s, pt (Scene.TLabel s) = false) ->
  Observe.count_tag pt (Scene.labels e i) = 0%nat.
Proof.
  intro H. unfold Scene.labels. destruct (i =? 15)%nat; [| reflexivity].
  unfold Observe.count_tag. simpl. rewrite !H. reflexivity.
Qed.

Lemma count_balconies (pt : Scene.tag -> bool) (e : Scene.env) (f : Geometry.floor)
  (i : nat) :
  Observe.count_tag pt (Scene.balconies e f i)
  = if pt Scene.TBalcony && negb (Scene.e_cutaway e) && Nat.eqb (i mod 5) 0 && (0 <? i)%nat
    then 4%nat else 0%nat.
Proof.
  unfold Scene.balconies.
  destruct (Scene.e_cutaway e), (i mod 5 =? 0)%nat, (0 <? i)%nat;
    cbn [negb andb]; rewrite ?andb_false_r; try reflexivity.
  rewrite (count_tag_map pt Scene.TBalcony); [| reflexivity].
  destruct (pt Scene.TBalcony); reflexivity.
Qed.

Lemma count_mechanical (pt : Scene.tag -> bool) (e : Scene.env) (f : Geometry.floor)
  (i : nat) :
  Observe.count_tag pt (Scene.mechanical e f i)
  = if pt Scene.TMechanical && Nat.eqb (i mod 15) 0 && (0 <? i)%nat then 1%nat else 0%nat.
Proof.
  unfold Scene.mechanical, Observe.count_tag.
  destruct (i mod 15 =? 0)%nat, (0 <? i)%nat; cbn [andb]; rewrite ?andb_false_r;
    try reflexivity.
  simpl. destruct (pt Scene.TMechanical); reflexivity.
Qed.

Lemma count_window_frames (pt : Scene.tag -> bool) (e : Scene.env) (f : Geometry.floor)
  (i : nat) :
  Observe.count_tag pt (Scene.window_frames e f i)
  = if pt Scene.TWindowFrame && negb (Scene.e_cutaway e) && Nat.eqb (i mod 2) 0
    then Scene.window_segments e else 0%nat.
Proof.
  unfold Scene.window_frames.
  destruct (Scene.e_cutaway e), (i mod 2 =? 0)%nat;
    cbn [negb andb]; rewrite ?andb_false_r; try reflexivity.
  rewrite (count_tag_map pt Scene.TWindowFrame); [| reflexivity].
  rewrite length_seq. destruct (pt Scene.TWindowFrame); reflexivity.
Qed.

Lemma count_belt_truss (pt : Scene.tag -> bool) (e : Scene.env) (f : Geometry.floor)
  (i : nat) :
  pt Scene.TBeltTruss = false -> Observe.count_tag pt (Scene.belt_truss e f i) = 0%nat.
Proof.
  intro H. unfold Scene.belt_truss, Observe.count_tag.
  destruct (Style.hasOutriggers (Scene.e_structureRec e) && (i mod 10 =? 0)%nat);
    simpl; rewrite ?H; reflexivity.
Qed.

(** The floor groups of the rendered scene, floor [i] at position [i]. *)
Lemma per_floor_count_scene (pt : Scene.tag -> bool) (p : option result) (cut : bool)
  (mode : option string) :
  Observe.per_floor_count pt (Scene.DetailedBuilding p cut mode)
  = map (fun i => Observe.count_tag pt
           (Scene.floor_children (Scene.env_of p cut mode) i
              (Geometry.floor_at (Geometry.taperRatio (geoParams p))
                 (Geometry.twistTotal (geoParams p)) i)))
        (seq 0 30).
Proof.
  unfold Observe.per_floor_count, Scene.DetailedBuilding, Geometry.floors,
    Geometry.floors_of, Scene.mapi. cbn [Scene.sc_floor_groups].
  generalize (Geometry.floor_at (Geometry.taperRatio (geoParams p))
                (Geometry.twistTotal (geoParams p))) as h.
  generalize (Scene.env_of p cut mode) as e.
  intros e h. change Geometry.floorCount with 30%nat.
  generalize 30%nat as n. generalize 0%nat as k.
  intros k n. revert k. induction n as [| n IH]; intro k; [reflexivity |].
  simpl. f_equal. apply IH.
Qed.

Ltac floor_counts :=
  intros i Hi; apply in_seq in Hi;
  rewrite count_floor_children, count_cutaway_layers, count_balconies, count_mechanical,
    count_window_frames, count_belt_truss by reflexivity;
  first [ rewrite count_labels by (intro; reflexivity)
        | rewrite count_labels_none by (intro; reflexivity) ];
  change (Scene.e_cutaway (Scene.env_of _ ?c _)) with c;
  cbn [Observe.is_mechanical Observe.is_balcony Observe.is_window_frame Observe.is_rib
       Observe.is_inner Observe.is_insulation Observe.is_label andb negb];
  do 30 (destruct i as [| i]; [cbn [Nat.eqb Nat.ltb Nat.leb Nat.even Nat.modulo
                                   Nat.divmod fst snd Nat.sub andb orb negb existsb];
                               lia |]); lia.

(** The exterior schedule of the 30 floors: the mechanical block is drawn
    on floor 15 only (in every mode); outside cutaway, four balconies on
    floors 5, 10, 15, 20 and 25 and a ring of [window_segments] mullions on
    every even floor; in cutaway neither balconies nor window frames. *)
Theorem exterior_floor_schedule :
  forall (p : option result) (cut : bool) (mode : option string),
    let sc := Scene.DetailedBuilding p cut mode in
    let w := Scene.window_segments (Scene.env_of p cut mode) in
    Observe.per_floor_count Observe.is_mechanical sc
    = map (fun i => if Nat.eqb i 15 then 1%nat else 0%nat) (seq 0 30)
    /\ Observe.per_floor_count Observe.is_balcony sc
       = map (fun i => if cut then 0%nat
                       else if existsb (Nat.eqb i) [5; 10; 15; 20; 25]%nat then 4%nat
                       else 0%nat) (seq 0 30)
    /\ Observe.per_floor_count Observe.is_window_frame sc
       = map (fun i => if cut then 0%nat else if Nat.even i then w else 0%nat) (seq 0 30).
Proof.
  intros p cut mode sc w. unfold sc.
  rewrite !per_floor_count_scene. fold w.
  split; [| split]; apply map_ext_in; destruct cut; floor_counts.
Qed.

(** The cutaway schedule of the 30 floors: in cutaway every floor gets four
    core ribs and one inner material ring, an insulation ring on every third
    floor (0, 3, ..., 27) and the four x-ray labels on floor 15 only;
    outside cutaway none of these layers is drawn. *)
Theorem cutaway_floor_schedule :
  forall (p : option result) (cut : bool) (mode : option string),
    let sc := Scene.DetailedBuilding p cut mode in
    Observe.per_floor_count Observe.is_rib sc
    = map (fun _ => if cut then 4%nat else 0%nat) (seq 0 30)
    /\ Observe.per_floor_count Observe.is_inner sc
       = map (fun _ => if cut then 1%nat else 0%nat) (seq 0 30)
    /\ Observe.per_floor_count Observe.is_insulation sc
       = map (fun i => if cut && Nat.eqb (i mod 3) 0 then 1%nat else 0%nat) (seq 0 30)
    /\ Observe.per_floor_count Observe.is_label sc
       = map (fun i => if cut && Nat.eqb i 15 then 4%nat else 0%nat) (seq 0 30).
Proof.
  intros p cut mode sc. unfold sc.
  rewrite !per_floor_count_scene.
  split; [| split; [| split]]; apply map_ext_in; destruct cut; floor_counts.
Qed.

(** ** Window mullions, pilings, foundation and core *)

(** The number of window mullions per ring is at least 3 and at most 24,
    and it never decreases when the wind speed rises (same cross-section
    type); with no wind speed given it is the base count of the type. *)
Theorem window_segments_range_monotone :
  forall e1 e2 : Scene.env,
    Scene.e_type e1 = Scene.e_type e2 ->
    Js.num_or (Scene.e_wind e1) 30 <= Js.num_or (Scene.e_wind e2) 30 ->
    (3 <= Scene.window_segments e1 <= 24)%nat
    /\ (Scene.window_segments e1 <= Scene.window_segments e2)%nat.
Proof.
  intros e1 e2 Ht Hw. unfold Scene.window_segments. rewrite Ht.
  set (w1 := Js.num_or (Scene.e_wind e1) 30) in *.
  set (w2 := Js.num_or (Scene.e_wind e2) 30) in *.
  set (b := if Js.eq_opt (Scene.e_type e2) "cylinder"%string then 12%nat
            else if Js.eq_opt (Scene.e_type e2) "hexagon"%string then 6%nat
            else if Js.eq_opt (Scene.e_type e2) "triangle"%string
                    || Js.eq_opt (Scene.e_type e2) "prism"%string then 3%nat
            else 4%nat).
  assert (Hb : b = 12%nat \/ b = 6%nat \/ b = 3%nat \/ b = 4%nat).
  { unfold b. repeat match goal with |- context [if ?c then _ else _] => destruct c end;
      auto. }
  assert (H32 : (b <= (b * 3) / 2 <= b * 2)%nat)
    by (destruct Hb as [-> | [-> | [-> | ->]]]; simpl; lia).
  destruct (Rlt_dec 100 w1), (Rlt_dec 100 w2), (Rlt_dec 70 w1), (Rlt_dec 70 w2);
    try (exfalso; lra);
    (split; [destruct Hb as [-> | [-> | [-> | ->]]]; simpl; lia | lia]).
Qed.

(** Pilings and foundation follow the hazard tiers: three pilings are drawn
    exactly when the flood tier is high (target 15) or the seismic tier is
    high (PGA 0.05), none when both are low; the foundation is light grey
    exactly when the flood tier is high. *)
Theorem pilings_foundation_tiers :
  forall (p : option result) (cut : bool) (mode : option string),
    let sc := Scene.DetailedBuilding p cut mode in
    (length (Scene.sc_pilings sc) = 3%nat
     <-> Scene.floodRisk p = 15 \/ Scene.seismicPGA p = 0.05)
    /\ (length (Scene.sc_pilings sc) = 0%nat
        <-> Scene.floodRisk p = 5 /\ Scene.seismicPGA p = 0.02)
    /\ (Observe.mesh_color (Scene.sc_foundation sc) = Some "#cbd5e1"%string
        <-> Scene.floodRisk p = 15).
Proof.
  intros p cut mode sc. unfold sc, Scene.DetailedBuilding. cbn [Scene.sc_pilings Scene.sc_foundation].
  unfold Scene.pilings, Scene.foundation, Observe.mesh_color. cbn [Scene.mesh_material option_map Scene.m_color].
  destruct (floodRisk_tiers p) as [Hf | Hf]; destruct (seismicPGA_tiers p) as [Hs | Hs];
    rewrite Hf, Hs; unfold Q2R; simpl;
    repeat match goal with |- context [Rlt_dec ?a ?b] => destruct (Rlt_dec a b) end;
    simpl; try (exfalso; lra);
    (split; [| split]); split; intro H; try lra; try reflexivity;
    try (destruct H as [H | H]; lra); try (destruct H; lra);
    try discriminate H; try (injection H; intro; discriminate); auto.
Qed.

(** The core cylinder is 90 units tall and centred at 45, so it spans
    [[0, 90]]; every floor group sits inside that span: its offset is
    between 0 and 87 and the next floor starts 3 units higher. *)
Theorem core_spans_floor_stack :
  forall (p : option result) (cut : bool) (mode : option string),
    let sc := Scene.DetailedBuilding p cut mode in
    Scene.mesh_geometry (Scene.sc_core sc) = [Scene.CylinderGeometry 1.5 1.5 90 8]
    /\ Scene.mesh_position (Scene.sc_core sc) = (0, 45, 0)
    /\ forall i g, nth_error (Scene.sc_floor_groups sc) i = Some g ->
         Geometry.f_y (Scene.g_floor g) = 3 * INR i
         /\ 0 <= Geometry.f_y (Scene.g_floor g) <= 87.
Proof.
  intros p cut mode sc.
  assert (Hh : INR Geometry.floorCount * Geometry.floorHeight * 2.5 = 90)
    by (rewrite INR_floorCount; unfold Geometry.floorHeight, Q2R; simpl; field).
  split; [| split].
  - unfold sc, Scene.DetailedBuilding, Scene.core. cbn [Scene.sc_core Scene.mesh_geometry].
    rewrite Hh. reflexivity.
  - unfold sc, Scene.DetailedBuilding, Scene.core. cbn [Scene.sc_core Scene.mesh_position].
    rewrite Hh. f_equal. f_equal. field.
  - intros i g Hg.
    assert (Hf : nth_error (map Scene.g_floor (Scene.sc_floor_groups sc)) i
                 = Some (Scene.g_floor g)) by (rewrite nth_error_map, Hg; reflexivity).
    unfold sc in Hf. rewrite floor_groups_floors in Hf.
    unfold Geometry.floors, Geometry.floors_of in Hf.
    rewrite nth_error_map in Hf.
    destruct (nth_error (seq 0 Geometry.floorCount) i) as [k |] eqn:Hk; [| discriminate].
    injection Hf as <-.
    assert (Hi : (i < 30)%nat /\ k = i).
    { assert (Hlt : (i < length (seq 0 Geometry.floorCount))%nat)
        by (apply nth_error_Some; rewrite Hk; discriminate).
      rewrite length_seq in Hlt. split; [exact Hlt |].
      rewrite nth_error_seq in Hk.
      destruct (i <? Geometry.floorCount)%nat; [injection Hk; lia | discriminate]. }
    destruct Hi as [Hi ->].
    unfold Geometry.floor_at. cbn [Geometry.f_y]. unfold Geometry.floorHeight, Q2R; simpl.
    assert (0 <= INR i <= 29).
    { split; [apply pos_INR |]. replace 29 with (INR 29) by (simpl; lra).
      apply le_INR. lia. }
    split; [field | lra].
Qed.

(** ** Dashboard *)


Lemma includes_single_app (a b : string) (c : ascii) :
  Js.includes (a ++ b) (String c EmptyString)
  = Js.includes a (String c EmptyString) || Js.includes b (String c EmptyString).
Proof.
  induction a as [| d a IH]; simpl.
  - reflexivity.
  - assert (H0 : forall x, Js.startsWith x EmptyString = true) by (intros []; reflexivity).
    rewrite IH, !H0. apply orb_assoc.
Qed.

Lemma replace_spaces_no_space (r : ascii) (s : string) :
  r <> " "%char -> Js.includes (Dashboard.replace_spaces r s) " " = false.
Proof.
  intro Hr. induction s as [| c s IH]; [reflexivity |].
  assert (H0 : forall x, Js.startsWith x EmptyString = true) by (intros []; reflexivity).
  cbn [Dashboard.replace_spaces].
  change (Js.includes (String ?x ?y) " ")
    with ((Ascii.eqb " " x && Js.startsWith y "") || Js.includes y " ").
  rewrite IH, H0, orb_false_r, andb_true_r.
  destruct (Ascii.eqb c " ") eqn:E; apply Ascii.eqb_neq.
  - intro H. apply Hr. symmetry. exact H.
  - intro H. rewrite <- H, Ascii.eqb_refl in E. discriminate E.
Qed.

Lemma replace_spaces_length (r : ascii) (s : string) :
  String.length (Dashboard.replace_spaces r s) = String.length s.
Proof. induction s as [| c s IH]; simpl; congruence. Qed.

Lemma length_append (a b : string) :
  String.length (a ++ b) = (String.length a + String.length b)%nat.
Proof. induction a as [| c a IH]; simpl; congruence. Qed.

(** The report's file name and the material search URL never contain a
    space, whatever the location name or material text; the file name is
    the location name with each space turned into [_], so it is exactly 22
    characters longer than the name. *)
Theorem no_spaces_in_file_name_and_search_url :
  forall name material : string,
    Js.includes (Dashboard.reportFileName name) " " = false
    /\ String.length (Dashboard.reportFileName name) = (String.length name + 22)%nat
    /\ Js.includes (Dashboard.materialSearchUrl material) " " = false.
Proof.
  intros name material.
  unfold Dashboard.reportFileName, Dashboard.materialSearchUrl.
  rewrite !includes_single_app, !replace_spaces_no_space by discriminate.
  rewrite length_append, replace_spaces_length.
  repeat split; reflexivity.
Qed.

(** The structure card's link: when the lower-cased structure text contains
    one of the nine dictionary terms, the link is the Wikipedia page of one
    of nine fixed articles; otherwise it is a DuckDuckGo search for the raw
    structure text. *)
Theorem structure_link_target :
  forall structure : string,
    (Dashboard.hasWiki structure = true
     /\ exists a, In a Dashboard.wiki_articles
                  /\ Dashboard.structureLinkUrl structure
                     = ("https://en.wikipedia.org/wiki/" ++ a)%string)
    \/ (Dashboard.hasWiki structure = false
        /\ Dashboard.structureLinkUrl structure
           = ("https://duckduckgo.com/?q=" ++ structure
              ++ "+structural+system+architectural+definition&ia=web")%string).
Proof.
  intro structure.
  unfold Dashboard.structureLinkUrl, Dashboard.hasWiki, Dashboard.wiki_query,
    Dashboard.directWiki, Dashboard.wiki_articles.
  set (l := Js.toLowerCase structure).
  simpl existsb.
  repeat match goal with |- context [Js.includes l ?t] =>
    destruct (Js.includes l t) end; simpl;
  first [ right; split; reflexivity
        | left; split; [reflexivity |]; eexists; split; [| reflexivity]; simpl; tauto ].
Qed.

(** The quake button reads "Scale 8.0 Quake" exactly when the viewer's
    seismic tier is high (PGA 0.05), and "Scale 6.0 Quake" otherwise. *)
Theorem quake_label_matches_pga :
  forall p : option result,
    (Dashboard.quakeButtonLabel p = "Scale 8.0 Quake"%string <-> Scene.seismicPGA p = 0.05)
    /\ (Dashboard.quakeButtonLabel p = "Scale 6.0 Quake"%string <-> Scene.seismicPGA p = 0.02).
Proof.
  intro p. unfold Dashboard.quakeButtonLabel, Scene.seismicPGA.
  destruct p as [r |]; [destruct (r_seismic_zone r) as [z |]; [destruct (Js.includes z "High") |] |];
    simpl; unfold Q2R; simpl;
    (split; split; intro H; try reflexivity; try discriminate H; exfalso; lra).
Qed.

(** The report's "Layer 2" colour and the 3D cutaway agree on the smart
    layer: when the report calls the mid layer indigo, the inner material
    ring of the viewer, fed the same material text, is drawn indigo
    ([#818cf8]) on every floor and in every mode. *)
Theorem layer2_indigo_matches_inner_ring :
  forall (r : result) (m : string) (cut : bool) (mode : option string)
         (f : Geometry.floor),
    r_material r = Some m ->
    snd (Dashboard.layer2 m) = "Indigo - Active Repair System"%string ->
    Observe.mesh_color (Scene.inner_layer (Scene.env_of (Some r) cut mode) f)
    = Some "#818cf8"%string.
Proof.
  intros r m cut mode f Hm H.
  unfold Dashboard.layer2 in H. cbv zeta in H.
  unfold Observe.mesh_color, Scene.inner_layer, Scene.env_of, Style.materialRec.
  cbn [Scene.e_materialRec Scene.mesh_material option_map Scene.m_color].
  rewrite Hm. cbn [Js.lower_or_empty].
  destruct (Js.includes (Js.toLowerCase m) "self-healing"); [reflexivity |].
  destruct (Js.includes (Js.toLowerCase m) "graphene"); [reflexivity |].
  cbn [orb] in H.
  repeat match type of H with context [if ?c then _ else _] => destruct c end;
    cbn [snd] in H; discriminate H.
Qed.

(** ** Clipping *)

Lemma Forall_map_intro {A B : Type} (P : B -> Prop) (h : A -> B) (l : list A) :
  (forall x, P (h x)) -> Forall P (map h l).
Proof. intro H. induction l as [| x l IH]; constructor; auto. Qed.

Lemma Forall_mapi_from_intro {A B : Type} (P : B -> Prop) (h : nat -> A -> B) (l : list A) :
  (forall n x, P (h n x)) -> forall k, Forall P (Scene.mapi_from h k l).
Proof. intro H. induction l as [| x l IH]; intro k; constructor; auto. Qed.

Lemma clipped_some (clip : list Scene.plane) (m : Scene.mesh) (mat : Scene.material) :
  Scene.mesh_material m = Some mat -> Scene.m_clippingPlanes mat = clip ->
  Observe.clipped clip m.
Proof. intros H1 H2 mat' H. rewrite H1 in H. injection H as <-. exact H2. Qed.

Ltac clip_solve :=
  repeat (apply Forall_app; split);
  repeat constructor;
  first [ eapply clipped_some; reflexivity
        | intros ? H; discriminate H
        | apply Forall_map_intro; intro; eapply clipped_some; reflexivity
        | apply Forall_map_intro; intro; intros ? H; discriminate H ].

Lemma floor_children_clipped (e : Scene.env) (i : nat) (f : Geometry.floor) :
  (Scene.e_cutaway e = false -> Scene.e_clip e = []) ->
  Forall (Observe.clipped (Scene.e_clip e)) (Scene.floor_children e i f).
Proof.
  intro Hc. rewrite floor_children_split.
  assert (Hcut : forall l : list Scene.mesh,
            (Scene.e_cutaway e = false -> Forall (Observe.clipped []) l) ->
            (Scene.e_cutaway e = true -> l = []) ->
            Forall (Observe.clipped (Scene.e_clip e)) l).
  { intros l H1 H2. destruct (Scene.e_cutaway e).
    - rewrite H2 by reflexivity. constructor.
    - rewrite Hc by reflexivity. apply H1. reflexivity. }
  repeat (apply Forall_app; split).
  - repeat constructor. eapply clipped_some; reflexivity.
  - unfold Scene.cutaway_layers. destruct (Scene.e_cutaway e); [| constructor].
    unfold Scene.ribs, Scene.insulation, Scene.labels.
    destruct (i mod 3 =? 0)%nat, (i =? 15)%nat; clip_solve.
  - apply Hcut.
    + intros _. unfold Scene.balconies.
      destruct (negb (Scene.e_cutaway e) && (i mod 5 =? 0)%nat && (0 <? i)%nat);
        [| constructor].
      apply Forall_map_intro. intro. eapply clipped_some; reflexivity.
    + intro H. unfold Scene.balconies. rewrite H. reflexivity.
  - unfold Scene.mechanical. destruct ((i mod 15 =? 0)%nat && (0 <? i)%nat); clip_solve.
  - repeat constructor. eapply clipped_some; reflexivity.
  - apply Hcut.
    + intros _. unfold Scene.window_frames.
      destruct (negb (Scene.e_cutaway e) && (i mod 2 =? 0)%nat); [| constructor].
      apply Forall_map_intro. intro. eapply clipped_some; reflexivity.
    + intro H. unfold Scene.window_frames. rewrite H. reflexivity.
  - unfold Scene.columns, Scene.mapi.
    destruct (Style.hasDiagrid (Scene.e_structureRec e));
      [| destruct (Style.hasThickColumns (Scene.e_structureRec e))];
      apply Forall_mapi_from_intro; intros; eapply clipped_some; reflexivity.
  - unfold Scene.belt_truss.
    destruct (Style.hasOutriggers (Scene.e_structureRec e) && (i mod 10 =? 0)%nat);
      clip_solve.
Qed.

(** The cutaway clipping is applied uniformly: every mesh of the building
    that has a material (foundation, pilings, core and every child of every
    floor group) is clipped by exactly the planes of [clipPlanes isCutaway]
    (the half-space [x < 0] in cutaway, nothing otherwise), while the flood
    plane is never clipped. *)
Theorem clipping_uniform :
  forall (p : option result) (cut : bool) (mode : option string),
    let sc := Scene.DetailedBuilding p cut mode in
    let clip := Scene.clipPlanes cut in
    Observe.clipped clip (Scene.sc_foundation sc)
    /\ Forall (Observe.clipped clip) (Scene.sc_pilings sc)
    /\ Observe.clipped clip (Scene.sc_core sc)
    /\ Forall (fun g => Forall (Observe.clipped clip) (Scene.g_children g))
              (Scene.sc_floor_groups sc)
    /\ Observe.clipped [] (Scene.sc_water sc).
Proof.
  intros p cut mode sc clip. unfold sc, Scene.DetailedBuilding.
  cbn [Scene.sc_foundation Scene.sc_pilings Scene.sc_core Scene.sc_floor_groups
       Scene.sc_water].
  split; [| split; [| split; [| split]]].
  - eapply clipped_some; reflexivity.
  - unfold Scene.pilings.
    destruct (Rlt_dec 10 (Scene.floodRisk p)); [| destruct (Rlt_dec 0.04 (Scene.seismicPGA p))];
      first [ apply Forall_nil
            | apply Forall_map_intro; intro; eapply clipped_some; reflexivity ].
  - eapply clipped_some; reflexivity.
  - unfold Scene.mapi. apply Forall_mapi_from_intro. intros n f.
    unfold Scene.floor_group_of. cbn [Scene.g_children].
    apply (floor_children_clipped (Scene.env_of p cut mode)).
    cbn [Scene.e_cutaway Scene.e_clip Scene.env_of]. intro H. rewrite H. reflexivity.
  - eapply clipped_some; reflexivity.
Qed.

(** ** Fire mode *)

Lemma find_app_none {A : Type} (h : A -> bool) (l1 l2 : list A) :
  (forall x, In x l1 -> h x = false) -> find h (l1 ++ l2) = find h l2.
Proof.
  intro H. induction l1 as [| x l1 IH]; [reflexivity |].
  simpl. rewrite H by (left; reflexivity). apply IH. intros y Hy. apply H. right. exact Hy.
Qed.

(** In fire mode the hazard colours override the material style on every
    floor, in and out of cutaway: each floor slab glows red ([#ef4444],
    intensity 2), each facade ring turns light red ([#fca5a5]) at opacity
    0.3 with a red glow of intensity 0.4, and the core turns dark red with a
    red glow of intensity 0.5. *)
Theorem fire_mode_materials :
  forall (p : option result) (cut : bool) (g : Scene.floor_group),
    let sc := Scene.DetailedBuilding p cut (Some "fire"%string) in
    In g (Scene.sc_floor_groups sc) ->
    option_map (fun m => (Scene.m_emissive m, Scene.m_emissiveIntensity m))
      (Observe.first_material Observe.is_slab (Scene.g_children g))
    = Some (Some "#ef4444"%string, Some 2.0)
    /\ option_map (fun m => (Scene.m_color m, Scene.m_opacity m, Scene.m_emissive m,
                             Scene.m_emissiveIntensity m))
         (Observe.first_material Observe.is_facade (Scene.g_children g))
       = Some ("#fca5a5"%string, Some 0.3, Some "#ef4444"%string, Some (2.0 * 0.2))
    /\ option_map (fun m => (Scene.m_color m, Scene.m_emissive m,
                             Scene.m_emissiveIntensity m))
         (Scene.mesh_material (Scene.sc_core sc))
       = Some ("#7f1d1d"%string, Some "#ef4444"%string, Some 0.5).
Proof.
  intros p cut g sc Hg.
  unfold sc, Scene.DetailedBuilding, Scene.mapi in Hg.
  cbn [Scene.sc_floor_groups] in Hg.
  assert (Hgi : exists i f, g = Scene.floor_group_of
                                  (Scene.env_of p cut (Some "fire"%string)) i f).
  { revert Hg. generalize 0%nat.
    induction (Geometry.floors (geoParams p)) as [| f l IH]; intros k Hg;
      [destruct Hg |].
    destruct Hg as [Hg | Hg]; [exists k, f; symmetry; exact Hg | exact (IH (S k) Hg)]. }
  destruct Hgi as [i [f ->]].
  split; [| split]; [| | reflexivity].
  - reflexivity.
  - unfold Scene.floor_group_of, Observe.first_material. cbn [Scene.g_children].
    unfold Scene.floor_children. cbn [find].
    rewrite app_assoc, app_assoc.
    rewrite find_app_none; [reflexivity |].
    intros m Hm. repeat rewrite in_app_iff in Hm.
    unfold Scene.cutaway_layers, Scene.balconies, Scene.mechanical in Hm.
    destruct Hm as [[Hm | Hm] | Hm].
    + destruct (Scene.e_cutaway (Scene.env_of p cut (Some "fire"%string))); [| destruct Hm].
      unfold Scene.ribs, Scene.insulation, Scene.labels in Hm.
      destruct (i mod 3 =? 0)%nat, (i =? 15)%nat; simpl in Hm;
        repeat (destruct Hm as [<- | Hm]; [reflexivity |]); destruct Hm.
    + destruct (negb (Scene.e_cutaway (Scene.env_of p cut (Some "fire"%string)))
                && (i mod 5 =? 0)%nat && (0 <? i)%nat); [| destruct Hm].
      apply in_map_iff in Hm. destruct Hm as [x [<- _]]. reflexivity.
    + destruct ((i mod 15 =? 0)%nat && (0 <? i)%nat); [| destruct Hm].
      destruct Hm as [<- | []]. reflexivity.
Qed.

(** ** Witnesses of the further properties *)

Lemma non_quake_geometric_decay_witness :
  Js.eq_opt (Some "flood"%string) "quake"%string = false
  /\ Frame.rot_z (Frame.run None false (Some "flood"%string) 0 1 2
                    (Frame.mk_frame_state 0.1 0 0.1 (-5) 0))
     = 0.9 ^ 2 * 0.1.
Proof.
  split; [reflexivity |].
  exact (proj1 (non_quake_geometric_decay None false (Some "flood"%string) 1 2 0
                  (Frame.mk_frame_state 0.1 0 0.1 (-5) 0) eq_refl)).
Defined.

Lemma window_segments_range_monotone_witness :
  Js.num_or (Some 50) 30 <= Js.num_or (Some 120) 30
  /\ (Scene.window_segments
        (Scene.mk_env (Some "cylinder"%string) false None Style.style_default "" ""
           (Some 50%R) [])
      <= Scene.window_segments
           (Scene.mk_env (Some "cylinder"%string) false None Style.style_default "" ""
              (Some 120%R) []))%nat.
Proof.
  assert (H : Js.num_or (Some 50) 30 <= Js.num_or (Some 120) 30).
  { rewrite !num_or_nonzero by lra. lra. }
  split; [exact H |].
  exact (proj2 (window_segments_range_monotone
                  (Scene.mk_env (Some "cylinder"%string) false None Style.style_default "" ""
                     (Some 50%R) [])
                  (Scene.mk_env (Some "cylinder"%string) false None Style.style_default "" ""
                     (Some 120%R) [])
                  eq_refl H)).
Defined.

Lemma layer2_indigo_matches_inner_ring_witness :
  snd (Dashboard.layer2 "Self-Healing Graphene Composite"%string)
  = "Indigo - Active Repair System"%string
  /\ Observe.mesh_color
       (Scene.inner_layer (Scene.env_of (Some sample_material_result) true None)
          (Geometry.floor_at 1 0 3))
     = Some "#818cf8"%string.
Proof.
  assert (H : snd (Dashboard.layer2 "Self-Healing Graphene Composite"%string)
              = "Indigo - Active Repair System"%string) by reflexivity.
  split; [exact H |].
  exact (layer2_indigo_matches_inner_ring sample_material_result _ true None
           (Geometry.floor_at 1 0 3) eq_refl H).
Defined.

Lemma fire_mode_materials_witness :
  let g := Scene.floor_group_of (Scene.env_of None false (Some "fire"%string)) 0
             (Geometry.floor_at (Geometry.taperRatio (geoParams None))
                (Geometry.twistTotal (geoParams None)) 0) in
  In g (Scene.sc_floor_groups (Scene.DetailedBuilding None false (Some "fire"%string)))
  /\ option_map (fun m => (Scene.m_emissive m, Scene.m_emissiveIntensity m))
       (Observe.first_material Observe.is_slab (Scene.g_children g))
     = Some (Some "#ef4444"%string, Some 2.0).
Proof.
  intro g.
  assert (H : In g (Scene.sc_floor_groups
                      (Scene.DetailedBuilding None false (Some "fire"%string))))
    by exact (in_eq _ _).
  split; [exact H |].
  exact (proj1 (fire_mode_materials None false g H)).
Defined.
